(** * Token lifecycle of app/api/v1/login.py

    A shallow embedding of the three route handlers of
    [src/app/api/v1/login.py] ([login_for_access_token], [get_access_token]
    and [refresh_access_token]) together with the parts of the Python
    standard library they call ([datetime], [timedelta], [str] slicing).

    Modelling boundary.
    - Python [str] values are [string]s; HTTP header values are latin-1, so
      one character is one byte and [auth_header[7:]] drops seven bytes.
    - An aware UTC [datetime] is the number of microseconds elapsed since
      0001-01-01T00:00:00+00:00 (the instant of proleptic Gregorian ordinal 1,
      as in CPython); a [timedelta] is a number of microseconds.  Building
      a [timedelta] and adding one to a [datetime] raise [OverflowError]
      outside their ranges, as in CPython (messages of CPython 3.11).
    - The functions imported from [core.security], the logger and the clock
      are collaborators: state transformers over an abstract world (database,
      clock, log).  They are total; exceptions raised inside them are
      outside the model.  A clock reading may be any instant; the range of
      [datetime] is checked where the handlers add a lifetime to it.
    - [raise] is an explicit outcome: a handler or a library call either
      returns a value or raises an exception value carrying its class name
      and its detail.
    - The route decorators are outside the model; in particular the
      dependency [Depends(security_scheme)] of the refresh route, defined in
      [core.security], runs before the handler body modelled here. *)

From Stdlib Require Import ZArith List String Ascii Bool Lia.
Import ListNotations.
Local Open Scope string_scope.
Local Open Scope Z_scope.

(** ** Python strings *)

Module PyStr.

(** [s[n:]] for [0 <= n]: the string without its first [n] characters (the
    empty string when [s] is shorter). *)
Fixpoint slice_from (n : nat) (s : string) : string :=
  match n, s with
  | O, _ => s
  | S _, EmptyString => EmptyString
  | S n', String _ s' => slice_from n' s'
  end.

(** [s.startswith(p)]. *)
Definition startswith (s p : string) : bool := String.prefix p s.

(** Truth value of a [str]: only the empty string is falsy. *)
Definition truthy (s : string) : bool :=
  match s with
  | EmptyString => false
  | String _ _ => true
  end.

(** Truth value of an [Optional[str]]: [None] and the empty string are falsy. *)
Definition opt_truthy (o : option string) : bool :=
  match o with
  | None => false
  | Some s => truthy s
  end.

Definition lower_ascii (c : ascii) : ascii :=
  let n := nat_of_ascii c in
  if (Nat.leb 65 n && Nat.leb n 90)%bool then ascii_of_nat (n + 32) else c.

(** [s.lower()] on ASCII letters. *)
Fixpoint lower (s : string) : string :=
  match s with
  | EmptyString => EmptyString
  | String c s' => String (lower_ascii c) (lower s')
  end.

End PyStr.

(** ** Exceptions and outcomes *)

(** An exception value: the name of its class and its detail message. *)
Record exception := mk_exception {
  exc_class : string;
  exc_detail : string
}.

(** [UnauthorizedException(detail)] (core/exceptions/http_exceptions.py). *)
Definition UnauthorizedException (detail : string) : exception :=
  {| exc_class := "UnauthorizedException"; exc_detail := detail |}.

Inductive outcome (A : Type) : Type :=
| Return (a : A)
| Raise (e : exception).
Arguments Return {A} a.
Arguments Raise {A} e.

(** The built-in [OverflowError(detail)]. *)
Definition OverflowError (detail : string) : exception :=
  {| exc_class := "OverflowError"; exc_detail := detail |}.

(** ** datetime and timedelta *)

Module PyDatetime.

(** Microseconds since 0001-01-01T00:00:00 UTC. *)
Definition datetime := Z.

(** Microseconds. *)
Definition timedelta := Z.

Definition US_PER_SECOND : Z := 1000000.
Definition US_PER_MINUTE : Z := 60 * US_PER_SECOND.
Definition US_PER_DAY : Z := 86400 * US_PER_SECOND.

(** The largest [days] field of a [timedelta]. *)
Definition MAX_DELTA_DAYS : Z := 999999999.

(** The ordinal of [datetime.max], 9999-12-31. *)
Definition MAXORDINAL : Z := 3652059.

(** The [days] field of a delta of [us] microseconds is one a [timedelta]
    can hold. *)
Definition delta_fits (us : Z) : bool :=
  (- MAX_DELTA_DAYS <=? us / US_PER_DAY) && (us / US_PER_DAY <=? MAX_DELTA_DAYS).

(** The instant is one a [datetime] can hold: 0001-01-01T00:00:00 up to
    9999-12-31T23:59:59.999999. *)
Definition in_range (t : Z) : bool :=
  (0 <=? t) && (t <? MAXORDINAL * US_PER_DAY).

Definition digit (d : Z) : ascii := ascii_of_nat (48 + Z.to_nat (d mod 10)).

(** The decimal digits of [0 <= n < 10 ^ fuel], without leading zeros. *)
Fixpoint decimal_digits (fuel : nat) (n : Z) : string :=
  match fuel with
  | O => EmptyString
  | S fuel' =>
      if n <? 10 then String (digit n) EmptyString
      else decimal_digits fuel' (n / 10) ++ String (digit n) EmptyString
  end.

(** ["%d"] for a C [int]. *)
Definition decimal (n : Z) : string :=
  if n <? 0 then "-" ++ decimal_digits 10 (- n) else decimal_digits 10 n.

(** The [timedelta] of [us] microseconds, as the constructor builds it: the
    [days] field is converted to a C [int] and checked against
    [MAX_DELTA_DAYS]. *)
Definition new_delta (us : Z) : outcome timedelta :=
  let days := us / US_PER_DAY in
  if negb ((- 2 ^ 31 <=? days) && (days <? 2 ^ 31)) then
    Raise (OverflowError "Python int too large to convert to C int")
  else if delta_fits us then Return us
  else
    Raise (OverflowError
             ("days=" ++ decimal days ++ "; must have magnitude <= 999999999")).

(** [timedelta(minutes=m)] for an [int] [m]. *)
Definition timedelta_minutes (m : Z) : outcome timedelta :=
  new_delta (m * US_PER_MINUTE).

(** [timedelta(days=d)] for an [int] [d]. *)
Definition timedelta_days (d : Z) : outcome timedelta :=
  new_delta (d * US_PER_DAY).

(** [datetime + timedelta]. *)
Definition add (t : datetime) (d : timedelta) : outcome datetime :=
  if in_range (t + d) then Return (t + d)
  else Raise (OverflowError "date value out of range").

(** Neither [timedelta] for [us] microseconds nor its sum with the instant
    [t] overflows. *)
Definition expiry_fits (t : datetime) (us : Z) : bool :=
  delta_fits us && in_range (t + us).

(** CPython's calendar tables ([_DAYS_IN_MONTH], [_DAYS_BEFORE_MONTH]). *)
Definition DAYS_IN_MONTH (month : Z) : Z :=
  match month with
  | 1 => 31 | 2 => 28 | 3 => 31 | 4 => 30 | 5 => 31 | 6 => 30
  | 7 => 31 | 8 => 31 | 9 => 30 | 10 => 31 | 11 => 30 | 12 => 31
  | _ => 0
  end.

Definition DAYS_BEFORE_MONTH (month : Z) : Z :=
  match month with
  | 1 => 0 | 2 => 31 | 3 => 59 | 4 => 90 | 5 => 120 | 6 => 151
  | 7 => 181 | 8 => 212 | 9 => 243 | 10 => 273 | 11 => 304 | 12 => 334
  | _ => 0
  end.

Definition DI400Y : Z := 146097.
Definition DI100Y : Z := 36524.
Definition DI4Y : Z := 1461.

Definition b2z (b : bool) : Z := if b then 1 else 0.

(** CPython's [_ord2ymd]: proleptic Gregorian ordinal to (year, month, day),
    with 0001-01-01 as ordinal 1. *)
Definition ord2ymd (ordinal : Z) : Z * Z * Z :=
  let n := ordinal - 1 in
  let n400 := n / DI400Y in
  let n := n mod DI400Y in
  let year := n400 * 400 + 1 in
  let n100 := n / DI100Y in
  let n := n mod DI100Y in
  let n4 := n / DI4Y in
  let n := n mod DI4Y in
  let n1 := n / 365 in
  let n := n mod 365 in
  let year := year + n100 * 100 + n4 * 4 + n1 in
  if (n1 =? 4) || (n100 =? 4) then (year - 1, 12, 31)
  else
    let leapyear := (n1 =? 3) && (negb (n4 =? 24) || (n100 =? 3)) in
    let month := Z.shiftr (n + 50) 5 in
    let preceding := DAYS_BEFORE_MONTH month + b2z ((2 <? month) && leapyear) in
    if n <? preceding then
      let month := month - 1 in
      let preceding :=
        preceding - (DAYS_IN_MONTH month + b2z ((month =? 2) && leapyear)) in
      (year, month, n - preceding + 1)
    else (year, month, n - preceding + 1).

(** The [w] low decimal digits of [n], most significant first: the format
    ["%0wd"] for [0 <= n < 10^w]. *)
Fixpoint zero_padded (w : nat) (n : Z) : string :=
  match w with
  | O => EmptyString
  | S w' => zero_padded w' (n / 10) ++ String (digit n) EmptyString
  end.

(** [t.isoformat()] for an aware datetime whose [tzinfo] is [timezone.utc]:
    ["YYYY-MM-DDTHH:MM:SS"], then [".ffffff"] unless the microsecond field is
    zero, then the UTC offset ["+00:00"]. *)
Definition isoformat (t : datetime) : string :=
  let '(year, month, day) := ord2ymd (t / US_PER_DAY + 1) in
  let in_day := t mod US_PER_DAY in
  let seconds := in_day / US_PER_SECOND in
  let microsecond := in_day mod US_PER_SECOND in
  zero_padded 4 year ++ "-" ++ zero_padded 2 month ++ "-" ++ zero_padded 2 day
  ++ "T" ++ zero_padded 2 (seconds / 3600)
  ++ ":" ++ zero_padded 2 ((seconds / 60) mod 60)
  ++ ":" ++ zero_padded 2 (seconds mod 60)
  ++ (if microsecond =? 0 then "" else "." ++ zero_padded 6 microsecond)
  ++ "+00:00".

End PyDatetime.
Import PyDatetime.

(** ** Schemas (core/schemas.py) and the values the collaborators return *)

(** The record [authenticate_user] returns for a known user: the keys of the
    user dictionary the handlers read. *)
Module User.
Record t := mk {
  name : string;
  username : string;
  email : string;
  profile_image_url : string
}.
End User.

(** What [verify_token] resolves a credential to. *)
Module TokenData.
Record t := mk { username_or_email : string }.
End TokenData.

Module Token.
Record t := mk {
  access_token : string;
  token_type : string;
  expires_at : string
}.
End Token.

Module BackendTokens.
Record t := mk {
  access_token : Token.t;
  refresh_token : Token.t
}.
End BackendTokens.

Module UserDetails.
Record t := mk {
  name : string;
  username : string;
  email : string;
  profile_image_url : string
}.
End UserDetails.

Module LoginResponse.
Record t := mk {
  user : UserDetails.t;
  backend_tokens : BackendTokens.t
}.
End LoginResponse.

(** [OAuth2PasswordRequestForm]: the two fields the handlers read. *)
Module OAuth2PasswordRequestForm.
Record t := mk {
  username : string;
  password : string
}.
End OAuth2PasswordRequestForm.

(** A request: its header list, names in lower case as the server delivers
    them. *)
Module Request.
Record t := mk { headers : list (string * string) }.

(** [request.headers.get(key)]: the value of the first header whose name is
    [key.lower()], or [None]. *)
Definition headers_get (r : t) (key : string) : option string :=
  match find (fun kv => String.eqb (fst kv) (PyStr.lower key)) (headers r) with
  | Some kv => Some (snd kv)
  | None => None
  end.
End Request.

(** A [dict] with string keys and values, as a literal. *)
Definition dict := list (string * string).

(** ** The handler monad *)

(** A handler is a state transformer over the world that returns or raises. *)
Definition M (W A : Type) : Type := W -> outcome A * W.

Definition ret {W A} (a : A) : M W A := fun w => (Return a, w).

Definition raise {W A} (e : exception) : M W A := fun w => (Raise e, w).

Definition bind {W A B} (c : M W A) (k : A -> M W B) : M W B :=
  fun w =>
    match c w with
    | (Return a, w') => k a w'
    | (Raise e, w') => (Raise e, w')
    end.

(** A total collaborator call ([await f(...)]). *)
Definition call {W A} (f : W -> A * W) : M W A :=
  fun w => let '(a, w') := f w in (Return a, w').

(** A collaborator call made for its effect only. *)
Definition effect {W} (f : W -> W) : M W unit := fun w => (Return tt, f w).

(** A library call that only computes: it returns or raises and leaves the
    world as it is. *)
Definition eval {W A} (o : outcome A) : M W A := fun w => (o, w).

Declare Scope handler_scope.
Delimit Scope handler_scope with handler.
Notation "x <- c ;; k" := (bind c (fun x => k))
  (at level 61, c at next level, right associativity) : handler_scope.
Notation "c ;;; k" := (bind c (fun _ => k))
  (at level 61, right associativity) : handler_scope.

(** ** Collaborators *)

(** What the handlers import and call: the UTC clock, the logger and the four
    functions of [core.security]. *)
Record Collaborators (W : Type) := mk_collaborators {
  (** [datetime.now(timezone.utc)] *)
  utcnow : W -> datetime * W;
  (** [logger.error(user)] *)
  logger_error : option User.t -> W -> W;
  (** [authenticate_user(username_or_email, password, db)]: the user, or a
      falsy value *)
  authenticate_user : string -> string -> W -> option User.t * W;
  (** [create_access_token(data, expires_delta=None)] *)
  create_access_token : dict -> option timedelta -> W -> string * W;
  (** [create_refresh_token(data, expires_delta=None)] *)
  create_refresh_token : dict -> option timedelta -> W -> string * W;
  (** [verify_token(token, db)]: the token data, or a falsy value *)
  verify_token : string -> W -> option TokenData.t * W
}.
Arguments utcnow {W}.
Arguments logger_error {W}.
Arguments authenticate_user {W}.
Arguments create_access_token {W}.
Arguments create_refresh_token {W}.
Arguments verify_token {W}.

(** [settings] (core/config.py): the field the handlers read. *)
Record Settings := mk_settings { REFRESH_TOKEN_EXPIRE_DAYS : Z }.

(** ** The route handlers (src/app/api/v1/login.py) *)

Section Handlers.

Context {W : Type}.
Variable env : Collaborators W.
(** [ACCESS_TOKEN_EXPIRE_MINUTES], imported from [core.security]. *)
Variable ACCESS_TOKEN_EXPIRE_MINUTES : Z.
Variable settings : Settings.

Local Open Scope handler_scope.

(** POST /login *)
Definition login_for_access_token
    (form_data : OAuth2PasswordRequestForm.t) : M W LoginResponse.t :=
  user <- call (authenticate_user env
                  (OAuth2PasswordRequestForm.username form_data)
                  (OAuth2PasswordRequestForm.password form_data)) ;;
  effect (logger_error env user) ;;;
  match user with
  | None => raise (UnauthorizedException "Wrong username, email or password.")
  | Some user =>
      access_token_expires <-
        eval (timedelta_minutes ACCESS_TOKEN_EXPIRE_MINUTES) ;;
      now <- call (utcnow env) ;;
      access_expires_at <- eval (add now access_token_expires) ;;
      access_token <- call (create_access_token env
                              [("sub", User.username user)]
                              (Some access_token_expires)) ;;
      refresh_token <- call (create_refresh_token env
                               [("sub", User.username user)] None) ;;
      refresh_token_expires <-
        eval (timedelta_days (REFRESH_TOKEN_EXPIRE_DAYS settings)) ;;
      now <- call (utcnow env) ;;
      refresh_expires_at <- eval (add now refresh_token_expires) ;;
      ret (LoginResponse.mk
             (UserDetails.mk
                (User.name user)
                (User.username user)
                (User.email user)
                (User.profile_image_url user))
             (BackendTokens.mk
                (Token.mk access_token "bearer"
                   (isoformat access_expires_at ++ "Z"))
                (Token.mk refresh_token "bearer"
                   (isoformat refresh_expires_at ++ "Z"))))
  end.

(** POST /token *)
Definition get_access_token
    (form_data : OAuth2PasswordRequestForm.t) : M W Token.t :=
  user <- call (authenticate_user env
                  (OAuth2PasswordRequestForm.username form_data)
                  (OAuth2PasswordRequestForm.password form_data)) ;;
  match user with
  | None => raise (UnauthorizedException "Wrong username, email or password.")
  | Some user =>
      access_token_expires <-
        eval (timedelta_minutes ACCESS_TOKEN_EXPIRE_MINUTES) ;;
      now <- call (utcnow env) ;;
      access_expires_at <- eval (add now access_token_expires) ;;
      access_token <- call (create_access_token env
                              [("sub", User.username user)]
                              (Some access_token_expires)) ;;
      ret (Token.mk access_token "bearer" (isoformat access_expires_at ++ "Z"))
  end.

(** POST /refresh *)
Definition refresh_access_token (request : Request.t) : M W BackendTokens.t :=
  let auth_header := Request.headers_get request "Authorization" in
  if negb (PyStr.opt_truthy auth_header) then
    raise (UnauthorizedException "Authorization header missing.")
  else
    let auth_header := match auth_header with Some h => h | None => "" end in
    if negb (PyStr.startswith auth_header "Bearer ") then
      raise (UnauthorizedException "Authorization header must start with 'Bearer '")
    else
      let refresh_token := PyStr.slice_from 7 auth_header in
      if negb (PyStr.truthy refresh_token) then
        raise (UnauthorizedException "Refresh token missing.")
      else
        user_data <- call (verify_token env refresh_token) ;;
        match user_data with
        | None => raise (UnauthorizedException "Invalid refresh token.")
        | Some user_data =>
            new_access_token <-
              call (create_access_token env
                      [("sub", TokenData.username_or_email user_data)] None) ;;
            access_token_expires <-
              eval (timedelta_minutes ACCESS_TOKEN_EXPIRE_MINUTES) ;;
            now <- call (utcnow env) ;;
            access_expires_at <- eval (add now access_token_expires) ;;
            ret (BackendTokens.mk
                   (Token.mk new_access_token "bearer"
                      (isoformat access_expires_at ++ "Z"))
                   (Token.mk refresh_token "bearer" ""))
        end.

(** The refresh handler from the call of [verify_token] on (login.py
    103-122), for the credential [refresh_token], in state-passing form. *)
Definition refresh_presented (refresh_token : string) (w : W)
  : outcome BackendTokens.t * W :=
  match verify_token env refresh_token w with
  | (None, w1) => (Raise (UnauthorizedException "Invalid refresh token."), w1)
  | (Some user_data, w1) =>
      let '(new_access_token, w2) :=
        create_access_token env
          [("sub", TokenData.username_or_email user_data)] None w1 in
      match timedelta_minutes ACCESS_TOKEN_EXPIRE_MINUTES with
      | Raise e => (Raise e, w2)
      | Return access_token_expires =>
          let '(now, w3) := utcnow env w2 in
          match add now access_token_expires with
          | Raise e => (Raise e, w3)
          | Return access_expires_at =>
              (Return
                 (BackendTokens.mk
                    (Token.mk new_access_token "bearer"
                       (isoformat access_expires_at ++ "Z"))
                    (Token.mk refresh_token "bearer" "")), w3)
          end
      end
  end.

(** The three routes of the router and what each sends back. *)
Inductive Route :=
| PostLogin (form_data : OAuth2PasswordRequestForm.t)
| PostToken (form_data : OAuth2PasswordRequestForm.t)
| PostRefresh (request : Request.t).

Inductive Payload :=
| LoginPayload (response : LoginResponse.t)
| TokenPayload (token : Token.t)
| RefreshPayload (tokens : BackendTokens.t).

Definition serve (route : Route) : M W Payload :=
  match route with
  | PostLogin form_data =>
      response <- login_for_access_token form_data ;; ret (LoginPayload response)
  | PostToken form_data =>
      token <- get_access_token form_data ;; ret (TokenPayload token)
  | PostRefresh request =>
      tokens <- refresh_access_token request ;; ret (RefreshPayload tokens)
  end.

(** Every [Token] a payload carries. *)
Definition tokens_of (payload : Payload) : list Token.t :=
  match payload with
  | LoginPayload response =>
      [BackendTokens.access_token (LoginResponse.backend_tokens response);
       BackendTokens.refresh_token (LoginResponse.backend_tokens response)]
  | TokenPayload token => [token]
  | RefreshPayload tokens =>
      [BackendTokens.access_token tokens; BackendTokens.refresh_token tokens]
  end.

End Handlers.

(** ** The collaborators as the specification describes them

    [core/security.py] is not part of the sources at hand.  Where a property
    depends on what its functions do, they are modelled from sections 4.1 to
    4.4 of the specification. *)

Module Spec.

(** The payload of a credential (section 3, Claims). *)
Record Claims := mk_claims {
  subject : string;
  issued_at : datetime;
  expires_at : datetime
}.

(** Modelled from the spec: [ClaimsCodec.is_expired] (section 4.1),
    [now >= claims.expires_at]; the codec of core/security.py is missing. *)
Definition is_expired (claims : Claims) (now : datetime) : bool :=
  expires_at claims <=? now.

(** The failures of [ClaimsCodec.decode] (section 4.1). *)
Inductive DecodeFailure := InvalidSignature | MalformedCredential.

(** The failures of [TokenVerifier.verify] (section 4.4). *)
Inductive VerifyFailure := InvalidToken | Expired | Malformed.

Section Components.

Context {W : Type}.
(** The clock. *)
Variable now : W -> datetime * W.
(** The user-lookup collaborator (section 6). *)
Variable find_by_username_or_email : string -> W -> option User.t * W.
Variable verify_password : User.t -> string -> bool.
(** The codec, over the process-wide signing key. *)
Variable encode : Claims -> string.
Variable decode : string -> Claims + DecodeFailure.

(** Modelled from the spec: [AuthenticationService.authenticate] (section
    4.3), the missing [authenticate_user]: look the user up, then check the
    password; [None] on lookup miss or hash mismatch. *)
Definition authenticate (username_or_email password : string)
  : W -> option User.t * W :=
  fun w =>
    match find_by_username_or_email username_or_email w with
    | (None, w') => (None, w')
    | (Some user, w') =>
        if verify_password user password then (Some user, w')
        else (None, w')
    end.

(** Modelled from the spec: [TokenIssuer.issue_access] and [issue_refresh]
    (section 4.2), the missing [create_access_token] and
    [create_refresh_token]: [expires_at = now + ttl], [ttl] defaulting to the
    issuer's configured lifetime; the claims are encoded by the codec. *)
Definition issue (default_ttl : timedelta) (subject : string)
    (ttl : option timedelta) : W -> string * W :=
  fun w =>
    let '(t, w') := now w in
    let lifetime := match ttl with Some d => d | None => default_ttl end in
    (encode (mk_claims subject t (t + lifetime)), w').

(** The claims [issue] signs when the clock reads [t]. *)
Definition issued_claims (default_ttl : timedelta) (subject : string)
    (ttl : option timedelta) (t : datetime) : Claims :=
  mk_claims subject t
    (t + match ttl with Some d => d | None => default_ttl end).

(** Modelled from the spec: [TokenVerifier.verify] (section 4.4), the missing
    [verify_token]: decode, check expiry, resolve the subject. *)
Definition verify (credential : string) : W -> (User.t + VerifyFailure) * W :=
  fun w =>
    match decode credential with
    | inr InvalidSignature => (inr InvalidToken, w)
    | inr MalformedCredential => (inr Malformed, w)
    | inl claims =>
        let '(t, w1) := now w in
        if is_expired claims t then (inr Expired, w1)
        else
          match find_by_username_or_email (subject claims) w1 with
          | (None, w2) => (inr InvalidToken, w2)
          | (Some user, w2) => (inl user, w2)
          end
    end.

(** What the refresh handler receives from the verifier: the token data of
    the resolved identity, or a falsy value on any failure. *)
Definition verify_token (credential : string) : W -> option TokenData.t * W :=
  fun w =>
    match verify credential w with
    | (inl user, w') => (Some (TokenData.mk (User.username user)), w')
    | (inr _, w') => (None, w')
    end.

Definition sub_of (data : dict) : string :=
  match find (fun kv => String.eqb (fst kv) "sub") data with
  | Some kv => snd kv
  | None => ""
  end.

(** The collaborators of the handlers, built from the specified components;
    [access_ttl] and [refresh_ttl] are the issuer's default lifetimes. *)
Definition collaborators (log : option User.t -> W -> W)
    (access_ttl refresh_ttl : timedelta) : Collaborators W :=
  mk_collaborators W now log authenticate
    (fun data ttl => issue access_ttl (sub_of data) ttl)
    (fun data ttl => issue refresh_ttl (sub_of data) ttl)
    verify_token.

End Components.

(** The failure reasons of section 7. *)
Inductive Reason :=
| MissingHeader | MalformedScheme | EmptyToken
| ReasonMalformed | ReasonExpired | ReasonInvalidToken.

(** The reason a detail message of the refresh handler stands for. *)
Definition reason_of_detail (detail : string) : option Reason :=
  if String.eqb detail "Authorization header missing." then Some MissingHeader
  else if String.eqb detail "Authorization header must start with 'Bearer '"
  then Some MalformedScheme
  else if String.eqb detail "Refresh token missing." then Some EmptyToken
  else if String.eqb detail "Invalid refresh token." then Some ReasonInvalidToken
  else None.

(** The reason an outcome reports, if it is a failure. *)
Definition reported_reason {A} (o : outcome A) : option Reason :=
  match o with
  | Raise e => reason_of_detail (exc_detail e)
  | Return _ => None
  end.

End Spec.

(** ** ISO-8601 timestamps

    A complete date and time of day in the extended format
    [YYYY-MM-DD "T" hh:mm:ss] or the basic format [YYYYMMDD "T" hhmmss], an
    optional decimal fraction of the second, and a zone designator: ["Z"] or
    a signed offset.  A timestamp carries a UTC marker when its designator is
    ["Z"] or a zero offset. *)

Module Iso8601.

Definition is_digit (c : ascii) : bool :=
  let n := nat_of_ascii c in (Nat.leb 48 n && Nat.leb n 57)%bool.

Definition digit_value (c : ascii) : Z := Z.of_nat (nat_of_ascii c) - 48.

(** Exactly [n] digits: their value and the rest of the input. *)
Fixpoint digits (n : nat) (acc : Z) (s : string) : option (Z * string) :=
  match n with
  | O => Some (acc, s)
  | S n' =>
      match s with
      | String c s' =>
          if is_digit c then digits n' (10 * acc + digit_value c) s' else None
      | EmptyString => None
      end
  end.

(** One given character. *)
Definition lit (c : ascii) (s : string) : option string :=
  match s with
  | String c' s' => if Ascii.eqb c c' then Some s' else None
  | EmptyString => None
  end.

Fixpoint skip_digits (s : string) : string :=
  match s with
  | String c s' => if is_digit c then skip_digits s' else s
  | EmptyString => s
  end.

Definition is_decimal_sign (c : ascii) : bool :=
  Ascii.eqb c "." || Ascii.eqb c ",".

(** An optional fraction of the second: a decimal sign and at least one
    digit. *)
Definition fraction (s : string) : option string :=
  match s with
  | String c s' =>
      if is_decimal_sign c then
        match s' with
        | String d s'' => if is_digit d then Some (skip_digits s'') else None
        | EmptyString => None
        end
      else Some s
  | EmptyString => Some s
  end.

Definition is_leap (year : Z) : bool :=
  (year mod 4 =? 0) && (negb (year mod 100 =? 0) || (year mod 400 =? 0)).

Definition days_in_month (year month : Z) : Z :=
  if (month =? 2) && is_leap year then 29 else DAYS_IN_MONTH month.

Definition between (lo hi v : Z) : bool := (lo <=? v) && (v <=? hi).

Definition fields_ok (year month day hour minute second : Z) : bool :=
  between 1 12 month && between 1 (days_in_month year month) day
  && between 0 23 hour && between 0 59 minute && between 0 60 second.

Definition obind {A B} (o : option A) (k : A -> option B) : option B :=
  match o with
  | Some a => k a
  | None => None
  end.

(** The date and time of day in the extended format, without the zone: what
    is left of the input. *)
Definition extended (s : string) : option string :=
  obind (digits 4 0 s) (fun '(year, s) =>
  obind (lit "-" s) (fun s =>
  obind (digits 2 0 s) (fun '(month, s) =>
  obind (lit "-" s) (fun s =>
  obind (digits 2 0 s) (fun '(day, s) =>
  obind (lit "T" s) (fun s =>
  obind (digits 2 0 s) (fun '(hour, s) =>
  obind (lit ":" s) (fun s =>
  obind (digits 2 0 s) (fun '(minute, s) =>
  obind (lit ":" s) (fun s =>
  obind (digits 2 0 s) (fun '(second, s) =>
  if fields_ok year month day hour minute second
  then fraction s else None))))))))))).

(** The same in the basic format. *)
Definition basic (s : string) : option string :=
  obind (digits 4 0 s) (fun '(year, s) =>
  obind (digits 2 0 s) (fun '(month, s) =>
  obind (digits 2 0 s) (fun '(day, s) =>
  obind (lit "T" s) (fun s =>
  obind (digits 2 0 s) (fun '(hour, s) =>
  obind (digits 2 0 s) (fun '(minute, s) =>
  obind (digits 2 0 s) (fun '(second, s) =>
  if fields_ok year month day hour minute second
  then fraction s else None))))))).

(** The zone designators that mark UTC. *)
Definition utc_designator (s : string) : bool :=
  String.eqb s "Z" || String.eqb s "+00:00"
  || String.eqb s "+0000" || String.eqb s "+00".

Definition zone_is_utc (rest : option string) : bool :=
  match rest with
  | Some zone => utc_designator zone
  | None => false
  end.

(** A complete timestamp whose zone designator marks UTC. *)
Definition is_iso8601_utc (s : string) : bool :=
  zone_is_utc (extended s) || zone_is_utc (basic s).

(** No plus sign occurs in [s]. *)
Fixpoint no_plus (s : string) : bool :=
  match s with
  | EmptyString => true
  | String c s' => negb (Ascii.eqb c "+") && no_plus s'
  end.

(** [consumes s r]: [r] is what is left of [s] after a prefix without a plus
    sign. *)
Definition consumes (s r : string) : Prop :=
  exists p, s = p ++ r /\ no_plus p = true.

End Iso8601.

(** ** A sample deployment

    The world is the clock, in microseconds; every reading advances it by
    one.  One user, a toy codec, lifetimes of 30 minutes and 7 days. *)

Module Sample.

Definition World := Z.

(** 2024-01-01T00:00:00 UTC, ordinal 738886. *)
Definition t0 : datetime := (738886 - 1) * US_PER_DAY.

Definition alice : User.t :=
  User.mk "Alice" "alice" "alice@example.com" "https://example.com/a.png".

Definition now : World -> datetime * World := fun w => (w, w + 1).

Definition find_by_username_or_email (s : string) (w : World)
  : option User.t * World :=
  (if String.eqb s "alice" || String.eqb s "alice@example.com"
   then Some alice else None, w).

Definition verify_password (_ : User.t) (password : string) : bool :=
  String.eqb password "secret".

Definition encode (claims : Spec.Claims) : string :=
  Spec.subject claims ++ "@" ++ isoformat (Spec.expires_at claims).

Definition decode (credential : string) : Spec.Claims + Spec.DecodeFailure :=
  if String.eqb credential "alice@2024-01-08T00:00:00+00:00"
  then inl (Spec.mk_claims "alice" t0 (t0 + 7 * US_PER_DAY))
  else if String.eqb credential "alice@2023-12-31T00:00:00+00:00"
  then inl (Spec.mk_claims "alice" (t0 - 8 * US_PER_DAY)
              (t0 - 1 * US_PER_DAY))
  else if String.eqb credential "forged"
  then inr Spec.InvalidSignature
  else inr Spec.MalformedCredential.

Definition env : Collaborators World :=
  Spec.collaborators now find_by_username_or_email verify_password
    encode decode (fun _ w => w) (30 * US_PER_MINUTE) (7 * US_PER_DAY).

Definition settings : Settings := mk_settings 7.

Definition bearer (credential : string) : Request.t :=
  Request.mk [("host", "example.com");
              ("authorization", "Bearer " ++ credential)].

End Sample.

(** ** The health route (src/app/api/v1/health.py) *)

Module HealthCheck.
Record t := mk {
  name : string;
  version : string;
  description : string
}.
End HealthCheck.

(** GET /health *)
Definition health_check {W : Type} (request : Request.t) : M W HealthCheck.t :=
  let health :=
    HealthCheck.mk "Hello FastAPI" "1.0.0" "Test service of FastAPI" in
  ret health.

(** ** The range of [datetime] *)

Module Calendar.

(** [datetime.max.toordinal()]: 9999-12-31. *)
Definition MAXORDINAL : Z := 3652059.

(** The instants a [datetime] can hold: 0001-01-01T00:00:00 up to
    9999-12-31T23:59:59.999999. *)
Definition representable (t : datetime) : Prop :=
  0 <= t < MAXORDINAL * US_PER_DAY.

(** The month and day that [ord2ymd] computes from the day [n] of the year,
    counted from 0, and the leap-year flag: the last steps of [ord2ymd]. *)
Definition month_day (n : Z) (leapyear : bool) : Z * Z :=
  let month := Z.shiftr (n + 50) 5 in
  let preceding := DAYS_BEFORE_MONTH month + b2z ((2 <? month) && leapyear) in
  if n <? preceding then
    let month := month - 1 in
    let preceding :=
      preceding - (DAYS_IN_MONTH month + b2z ((month =? 2) && leapyear)) in
    (month, n - preceding + 1)
  else (month, n - preceding + 1).

(** [month_day] yields a month of the year and a day of that month. *)
Definition month_day_ok (leapyear : bool) (n : Z) : bool :=
  let '(month, day) := month_day n leapyear in
  Iso8601.between 1 12 month
  && Iso8601.between 1
       (DAYS_IN_MONTH month + b2z ((month =? 2) && leapyear)) day.

(** [p] holds on the [2^k] integers from [lo] on. *)
Fixpoint holds_from (p : Z -> bool) (k : nat) (lo : Z) : bool :=
  match k with
  | O => p lo
  | S k' => holds_from p k' lo && holds_from p k' (lo + 2 ^ Z.of_nat k')
  end.

End Calendar.

(** ** A sample deployment that keeps a log

    The world is the clock and the error log. *)

Module LoggedSample.

Definition World : Type := Z * list (option User.t).

Definition log_of (w : World) : list (option User.t) := snd w.

(** A collaborator of the sample deployment, run on the clock alone. *)
Definition on_clock {A} (f : Sample.World -> A * Sample.World)
  : World -> A * World :=
  fun w => let '(a, c) := f (fst w) in (a, (c, snd w)).

Definition env : Collaborators World :=
  mk_collaborators World
    (on_clock (utcnow Sample.env))
    (fun user w => (fst w, (snd w ++ [user])%list))
    (fun u p => on_clock (authenticate_user Sample.env u p))
    (fun data ttl => on_clock (create_access_token Sample.env data ttl))
    (fun data ttl => on_clock (create_refresh_token Sample.env data ttl))
    (fun tok => on_clock (verify_token Sample.env tok)).

End LoggedSample.

(** ** Reading an instant back *)

Module Readback.

(** CPython's [_days_before_year], [_days_before_month] and [_ymd2ord]. *)
Definition days_before_year (year : Z) : Z :=
  let y := year - 1 in y * 365 + y / 4 - y / 100 + y / 400.

Definition days_before_month (year month : Z) : Z :=
  DAYS_BEFORE_MONTH month + b2z ((2 <? month) && Iso8601.is_leap year).

Definition ymd2ord (year month day : Z) : Z :=
  days_before_year year + days_before_month year month + day.

(** The instant with the given calendar and clock fields. *)
Definition instant (year month day hour minute second microsecond : Z)
  : datetime :=
  (ymd2ord year month day - 1) * US_PER_DAY
  + ((hour * 60 + minute) * 60 + second) * US_PER_SECOND + microsecond.

(** The day of the year [month_day] stands for is the one it was given. *)
Definition month_day_inverts (leapyear : bool) (n : Z) : bool :=
  let '(month, day) := Calendar.month_day n leapyear in
  DAYS_BEFORE_MONTH month + b2z ((2 <? month) && leapyear) + day =? n + 1.

(** The microsecond field: six digits after a point, or none. *)
Definition microseconds (s : string) : option (Z * string) :=
  match s with
  | String "."%char s' => Iso8601.digits 6 0 s'
  | _ => Some (0, s)
  end.

(** The instant a string in the format of [isoformat] denotes. *)
Definition read_instant (s : string) : option datetime :=
  Iso8601.obind (Iso8601.digits 4 0 s) (fun '(year, s) =>
  Iso8601.obind (Iso8601.lit "-" s) (fun s =>
  Iso8601.obind (Iso8601.digits 2 0 s) (fun '(month, s) =>
  Iso8601.obind (Iso8601.lit "-" s) (fun s =>
  Iso8601.obind (Iso8601.digits 2 0 s) (fun '(day, s) =>
  Iso8601.obind (Iso8601.lit "T" s) (fun s =>
  Iso8601.obind (Iso8601.digits 2 0 s) (fun '(hour, s) =>
  Iso8601.obind (Iso8601.lit ":" s) (fun s =>
  Iso8601.obind (Iso8601.digits 2 0 s) (fun '(minute, s) =>
  Iso8601.obind (Iso8601.lit ":" s) (fun s =>
  Iso8601.obind (Iso8601.digits 2 0 s) (fun '(second, s) =>
  Iso8601.obind (microseconds s) (fun '(microsecond, s) =>
  if String.eqb s "+00:00"
  then Some (instant year month day hour minute second microsecond)
  else None)))))))))))).

End Readback.

(** ** Other collaborators over the sample world *)

Module Fixtures.

(** The sample deployment with another authentication service, a logger
    that takes time and a refresh-token issuer of its own. *)
Definition rotating : Collaborators Sample.World :=
  mk_collaborators Sample.World
    (utcnow Sample.env)
    (fun _ w => w + 5)
    (fun _ _ w => (None, w))
    (create_access_token Sample.env)
    (fun _ _ w => ("rotated", w + 1))
    (verify_token Sample.env).

(** The sample deployment with a stopped clock and issuers that hand out
    empty credentials. *)
Definition stopped : Collaborators Sample.World :=
  mk_collaborators Sample.World
    (fun w => (0, w))
    (logger_error Sample.env)
    (authenticate_user Sample.env)
    (fun _ _ w => ("", w))
    (fun _ _ w => ("", w))
    (verify_token Sample.env).

End Fixtures.

(** * Properties *)

(** ** Strings *)

Lemma startswith_bearer (token : string) :
  PyStr.startswith ("Bearer " ++ token) "Bearer " = true.
Proof.
  unfold PyStr.startswith. apply String.prefix_correct.
  simpl. f_equal. f_equal. f_equal. f_equal. f_equal. f_equal. f_equal.
  destruct token; reflexivity.
Qed.

Lemma slice_bearer (token : string) :
  PyStr.slice_from 7 ("Bearer " ++ token) = token.
Proof. reflexivity. Qed.

Lemma substring_0_slice (n : nat) (s : string) :
  String.substring 0 n s ++ PyStr.slice_from n s = s.
Proof.
  revert s. induction n as [|n IH]; intros [|c s]; simpl; try reflexivity.
  now rewrite IH.
Qed.

(** A header passes the scheme test exactly when it is the literal prefix
    followed by the slice the handler takes. *)
Lemma startswith_bearer_inv (h : string) :
  PyStr.startswith h "Bearer " = true -> h = "Bearer " ++ PyStr.slice_from 7 h.
Proof.
  unfold PyStr.startswith. intros H.
  apply String.prefix_correct in H. simpl String.length in H.
  pose proof (substring_0_slice 7 h) as E. rewrite H in E.
  symmetry. exact E.
Qed.

Lemma truthy_nonempty (s : string) : PyStr.truthy s = true <-> s <> "".
Proof. destruct s; simpl; split; congruence. Qed.

Ltac conjuncts := repeat match goal with |- _ /\ _ => split end.

Ltac run_handler :=
  unfold login_for_access_token, get_access_token, refresh_access_token,
    bind, call, effect, eval, ret, raise.

(** ** The range checks of datetime and timedelta *)

Lemma new_delta_fits (us : Z) :
  delta_fits us = true -> new_delta us = Return us.
Proof.
  intros H. unfold new_delta. cbv zeta. rewrite H.
  unfold delta_fits, MAX_DELTA_DAYS in H.
  apply andb_true_iff in H as [H1 H2].
  apply Z.leb_le in H1. apply Z.leb_le in H2.
  assert (A1 : (- 2 ^ 31 <=? us / US_PER_DAY) = true)
    by (apply Z.leb_le; change (2 ^ 31) with 2147483648; lia).
  assert (A2 : (us / US_PER_DAY <? 2 ^ 31) = true)
    by (apply Z.ltb_lt; change (2 ^ 31) with 2147483648; lia).
  rewrite A1, A2. reflexivity.
Qed.

Lemma new_delta_inv (us d : Z) :
  new_delta us = Return d -> d = us /\ delta_fits us = true.
Proof.
  unfold new_delta. intros H.
  destruct (negb _); [discriminate|].
  destruct (delta_fits us); [|discriminate].
  injection H as <-. now split.
Qed.

Lemma new_delta_raises (us : Z) (e : exception) :
  new_delta us = Raise e ->
  exc_class e = "OverflowError" /\ delta_fits us = false.
Proof.
  unfold new_delta. intros H.
  destruct (negb _) eqn:Hc.
  - injection H as <-. split; [reflexivity|].
    apply negb_true_iff, andb_false_iff in Hc.
    change (2 ^ 31) with 2147483648 in Hc.
    unfold delta_fits, MAX_DELTA_DAYS. apply andb_false_iff.
    destruct Hc as [Hc|Hc]; [left; apply Z.leb_gt; apply Z.leb_gt in Hc
                            |right; apply Z.leb_gt; apply Z.ltb_ge in Hc]; lia.
  - destruct (delta_fits us); [discriminate|].
    injection H as <-. now split.
Qed.

Lemma add_in_range (t d : Z) :
  in_range (t + d) = true -> add t d = Return (t + d).
Proof. intros H. unfold add. now rewrite H. Qed.

Lemma add_inv (t d e : Z) :
  add t d = Return e -> e = t + d /\ in_range (t + d) = true.
Proof.
  unfold add. intros H. destruct (in_range (t + d)); [|discriminate].
  injection H as <-. now split.
Qed.

Lemma add_raises (t d : Z) (e : exception) :
  add t d = Raise e ->
  e = OverflowError "date value out of range" /\ in_range (t + d) = false.
Proof.
  unfold add. intros H. destruct (in_range (t + d)); [discriminate|].
  injection H as <-. now split.
Qed.

Lemma in_range_representable (t : Z) :
  in_range t = true <-> Calendar.representable t.
Proof.
  unfold in_range, Calendar.representable, MAXORDINAL, Calendar.MAXORDINAL.
  rewrite andb_true_iff, Z.leb_le, Z.ltb_lt. reflexivity.
Qed.

Section HandlerProperties.

Context {W : Type}.
Variable env : Collaborators W.
Variable ACCESS_TOKEN_EXPIRE_MINUTES : Z.
Variable settings : Settings.

Local Notation "'login'" :=
  (login_for_access_token env ACCESS_TOKEN_EXPIRE_MINUTES settings).
Local Notation "'token'" := (get_access_token env ACCESS_TOKEN_EXPIRE_MINUTES).
Local Notation "'refresh'" :=
  (refresh_access_token env ACCESS_TOKEN_EXPIRE_MINUTES).
Local Notation "'refresh_with'" :=
  (refresh_presented env ACCESS_TOKEN_EXPIRE_MINUTES).
Local Notation "'minutes'" := (ACCESS_TOKEN_EXPIRE_MINUTES * US_PER_MINUTE).
Local Notation "'days'" := (REFRESH_TOKEN_EXPIRE_DAYS settings * US_PER_DAY).

(** *** How the handlers run *)

Lemma refresh_header_cases (request : Request.t) (w : W) :
  (PyStr.opt_truthy (Request.headers_get request "Authorization") = false /\
   refresh request w =
     (Raise (UnauthorizedException "Authorization header missing."), w))
  \/ exists h,
       Request.headers_get request "Authorization" = Some h /\ h <> "" /\
       ((PyStr.startswith h "Bearer " = false /\
         refresh request w =
           (Raise (UnauthorizedException
                     "Authorization header must start with 'Bearer '"), w))
        \/ (h = "Bearer " /\
            refresh request w =
              (Raise (UnauthorizedException "Refresh token missing."), w))
        \/ exists tok, h = "Bearer " ++ tok /\ tok <> "" /\
             refresh request w = refresh_with tok w).
Proof.
  run_handler. unfold refresh_presented.
  destruct (Request.headers_get request "Authorization") as [h|] eqn:Hh;
    [|left; split; reflexivity].
  cbn [PyStr.opt_truthy].
  destruct (PyStr.truthy h) eqn:Ht; cbn [negb];
    [|left; split; reflexivity].
  right. exists h. split; [reflexivity|].
  split; [now apply truthy_nonempty|].
  destruct (PyStr.startswith h "Bearer ") eqn:Hp; cbn [negb];
    [|left; split; reflexivity].
  right. pose proof (startswith_bearer_inv h Hp) as Hs.
  destruct (PyStr.truthy (PyStr.slice_from 7 h)) eqn:Hr; cbn [negb].
  - right. exists (PyStr.slice_from 7 h). split; [exact Hs|].
    split; [now apply truthy_nonempty|].
    destruct (verify_token env (PyStr.slice_from 7 h) w) as [[ud|] w1];
      [|reflexivity].
    destruct (create_access_token env _ None w1) as [a w2].
    destruct (timedelta_minutes ACCESS_TOKEN_EXPIRE_MINUTES) as [d|e];
      [|reflexivity].
    destruct (utcnow env w2) as [t w3].
    destruct (add t d); reflexivity.
  - left. split; [|reflexivity].
    destruct (PyStr.slice_from 7 h); [now rewrite Hs|discriminate].
Qed.

Lemma refresh_bearer (request : Request.t) (tok : string) (w : W) :
  Request.headers_get request "Authorization" = Some ("Bearer " ++ tok) ->
  tok <> "" ->
  refresh request w = refresh_with tok w.
Proof.
  intros Hh Hne. run_handler. unfold refresh_presented. rewrite Hh.
  cbv [PyStr.opt_truthy]. change (PyStr.truthy ("Bearer " ++ tok)) with true.
  cbv [negb]. rewrite startswith_bearer. cbv [negb]. rewrite slice_bearer.
  apply truthy_nonempty in Hne. rewrite Hne. cbv [negb].
  destruct (verify_token env tok w) as [[ud|] w1]; [|reflexivity].
  destruct (create_access_token env _ None w1) as [a w2].
  destruct (timedelta_minutes ACCESS_TOKEN_EXPIRE_MINUTES) as [d|e];
    [|reflexivity].
  destruct (utcnow env w2) as [t w3].
  destruct (add t d); reflexivity.
Qed.

Lemma login_cases (form_data : OAuth2PasswordRequestForm.t) (w : W) :
  login form_data w =
    match authenticate_user env
            (OAuth2PasswordRequestForm.username form_data)
            (OAuth2PasswordRequestForm.password form_data) w with
    | (None, w1) =>
        (Raise (UnauthorizedException "Wrong username, email or password."),
         logger_error env None w1)
    | (Some user, w1) =>
        match timedelta_minutes ACCESS_TOKEN_EXPIRE_MINUTES with
        | Raise e => (Raise e, logger_error env (Some user) w1)
        | Return access_token_expires =>
            let '(t_access, w2) :=
              utcnow env (logger_error env (Some user) w1) in
            match add t_access access_token_expires with
            | Raise e => (Raise e, w2)
            | Return access_expires_at =>
                let '(access_token, w3) :=
                  create_access_token env [("sub", User.username user)]
                    (Some access_token_expires) w2 in
                let '(refresh_token, w4) :=
                  create_refresh_token env [("sub", User.username user)]
                    None w3 in
                match timedelta_days (REFRESH_TOKEN_EXPIRE_DAYS settings) with
                | Raise e => (Raise e, w4)
                | Return refresh_token_expires =>
                    let '(t_refresh, w5) := utcnow env w4 in
                    match add t_refresh refresh_token_expires with
                    | Raise e => (Raise e, w5)
                    | Return refresh_expires_at =>
                        (Return
                           (LoginResponse.mk
                              (UserDetails.mk (User.name user)
                                 (User.username user) (User.email user)
                                 (User.profile_image_url user))
                              (BackendTokens.mk
                                 (Token.mk access_token "bearer"
                                    (isoformat access_expires_at ++ "Z"))
                                 (Token.mk refresh_token "bearer"
                                    (isoformat refresh_expires_at ++ "Z")))),
                         w5)
                    end
                end
            end
        end
    end.
Proof.
  run_handler.
  destruct (authenticate_user env _ _ w) as [[user|] w1]; [|reflexivity].
  destruct (timedelta_minutes ACCESS_TOKEN_EXPIRE_MINUTES) as [d|e];
    [|reflexivity].
  destruct (utcnow env (logger_error env (Some user) w1)) as [t1 w2].
  destruct (add t1 d) as [e1|e]; [|reflexivity].
  destruct (create_access_token env _ _ w2) as [a w3].
  destruct (create_refresh_token env _ None w3) as [r w4].
  destruct (timedelta_days (REFRESH_TOKEN_EXPIRE_DAYS settings)) as [dd|e];
    [|reflexivity].
  destruct (utcnow env w4) as [t2 w5].
  destruct (add t2 dd); reflexivity.
Qed.

Lemma token_cases (form_data : OAuth2PasswordRequestForm.t) (w : W) :
  token form_data w =
    match authenticate_user env
            (OAuth2PasswordRequestForm.username form_data)
            (OAuth2PasswordRequestForm.password form_data) w with
    | (None, w1) =>
        (Raise (UnauthorizedException "Wrong username, email or password."), w1)
    | (Some user, w1) =>
        match timedelta_minutes ACCESS_TOKEN_EXPIRE_MINUTES with
        | Raise e => (Raise e, w1)
        | Return access_token_expires =>
            let '(t_access, w2) := utcnow env w1 in
            match add t_access access_token_expires with
            | Raise e => (Raise e, w2)
            | Return access_expires_at =>
                let '(access_token, w3) :=
                  create_access_token env [("sub", User.username user)]
                    (Some access_token_expires) w2 in
                (Return
                   (Token.mk access_token "bearer"
                      (isoformat access_expires_at ++ "Z")), w3)
            end
        end
    end.
Proof.
  run_handler.
  destruct (authenticate_user env _ _ w) as [[user|] w1]; [|reflexivity].
  destruct (timedelta_minutes ACCESS_TOKEN_EXPIRE_MINUTES) as [d|e];
    [|reflexivity].
  destruct (utcnow env w1) as [t1 w2].
  destruct (add t1 d) as [e1|e]; [|reflexivity].
  destruct (create_access_token env _ _ w2) as [a w3]. reflexivity.
Qed.

(** *** What a returned payload tells about the run *)

Lemma login_returned (form_data : OAuth2PasswordRequestForm.t) (w w' : W)
    (response : LoginResponse.t) :
  login form_data w = (Return response, w') ->
  exists user w1 t_access w2 access_token w3 refresh_token w4 t_refresh,
    authenticate_user env
      (OAuth2PasswordRequestForm.username form_data)
      (OAuth2PasswordRequestForm.password form_data) w = (Some user, w1) /\
    delta_fits minutes = true /\
    utcnow env (logger_error env (Some user) w1) = (t_access, w2) /\
    in_range (t_access + minutes) = true /\
    create_access_token env [("sub", User.username user)] (Some minutes) w2
      = (access_token, w3) /\
    create_refresh_token env [("sub", User.username user)] None w3
      = (refresh_token, w4) /\
    delta_fits days = true /\
    utcnow env w4 = (t_refresh, w') /\
    in_range (t_refresh + days) = true /\
    response =
      LoginResponse.mk
        (UserDetails.mk (User.name user) (User.username user)
           (User.email user) (User.profile_image_url user))
        (BackendTokens.mk
           (Token.mk access_token "bearer"
              (isoformat (t_access + minutes) ++ "Z"))
           (Token.mk refresh_token "bearer"
              (isoformat (t_refresh + days) ++ "Z"))).
Proof.
  intros H. rewrite login_cases in H.
  destruct (authenticate_user env _ _ w) as [[user|] w1]; [|discriminate].
  destruct (timedelta_minutes ACCESS_TOKEN_EXPIRE_MINUTES) as [d|e] eqn:Ed;
    [|discriminate].
  apply new_delta_inv in Ed as [-> Hd].
  destruct (utcnow env (logger_error env (Some user) w1)) as [t1 w2] eqn:E1.
  destruct (add t1 minutes) as [e1|e] eqn:Ee1; [|discriminate].
  apply add_inv in Ee1 as [-> Hr1].
  destruct (create_access_token env _ _ w2) as [a w3] eqn:E2.
  destruct (create_refresh_token env _ None w3) as [r w4] eqn:E3.
  destruct (timedelta_days (REFRESH_TOKEN_EXPIRE_DAYS settings)) as [dd|e]
    eqn:Edd; [|discriminate].
  apply new_delta_inv in Edd as [-> Hdd].
  destruct (utcnow env w4) as [t2 w5] eqn:E4.
  destruct (add t2 days) as [e2|e] eqn:Ee2; [|discriminate].
  apply add_inv in Ee2 as [-> Hr2].
  injection H as <- <-.
  exists user, w1, t1, w2, a, w3, r, w4, t2. conjuncts; auto.
Qed.

Lemma token_returned (form_data : OAuth2PasswordRequestForm.t) (w w' : W)
    (tok : Token.t) :
  token form_data w = (Return tok, w') ->
  exists user w1 t_access w2 access_token,
    authenticate_user env
      (OAuth2PasswordRequestForm.username form_data)
      (OAuth2PasswordRequestForm.password form_data) w = (Some user, w1) /\
    delta_fits minutes = true /\
    utcnow env w1 = (t_access, w2) /\
    in_range (t_access + minutes) = true /\
    create_access_token env [("sub", User.username user)] (Some minutes) w2
      = (access_token, w') /\
    tok = Token.mk access_token "bearer"
            (isoformat (t_access + minutes) ++ "Z").
Proof.
  intros H. rewrite token_cases in H.
  destruct (authenticate_user env _ _ w) as [[user|] w1]; [|discriminate].
  destruct (timedelta_minutes ACCESS_TOKEN_EXPIRE_MINUTES) as [d|e] eqn:Ed;
    [|discriminate].
  apply new_delta_inv in Ed as [-> Hd].
  destruct (utcnow env w1) as [t1 w2] eqn:E1.
  destruct (add t1 minutes) as [e1|e] eqn:Ee1; [|discriminate].
  apply add_inv in Ee1 as [-> Hr1].
  destruct (create_access_token env _ _ w2) as [a w3] eqn:E2.
  injection H as <- <-.
  exists user, w1, t1, w2, a. conjuncts; auto.
Qed.

Lemma presented_returned (tok : string) (w w' : W) (tokens : BackendTokens.t) :
  refresh_with tok w = (Return tokens, w') ->
  exists user_data w1 new_access_token w2 t_access,
    verify_token env tok w = (Some user_data, w1) /\
    create_access_token env
      [("sub", TokenData.username_or_email user_data)] None w1
      = (new_access_token, w2) /\
    delta_fits minutes = true /\
    utcnow env w2 = (t_access, w') /\
    in_range (t_access + minutes) = true /\
    tokens =
      BackendTokens.mk
        (Token.mk new_access_token "bearer"
           (isoformat (t_access + minutes) ++ "Z"))
        (Token.mk tok "bearer" "").
Proof.
  unfold refresh_presented. intros H.
  destruct (verify_token env tok w) as [[ud|] w1]; [|discriminate].
  destruct (create_access_token env _ None w1) as [a w2] eqn:Ea.
  destruct (timedelta_minutes ACCESS_TOKEN_EXPIRE_MINUTES) as [d|e] eqn:Ed;
    [|discriminate].
  apply new_delta_inv in Ed as [-> Hd].
  destruct (utcnow env w2) as [t w3] eqn:Et.
  destruct (add t minutes) as [e1|e] eqn:Ee1; [|discriminate].
  apply add_inv in Ee1 as [-> Hr1].
  injection H as <- <-.
  exists ud, w1, a, w2, t. conjuncts; auto.
Qed.

Lemma refresh_returned (request : Request.t) (w w' : W)
    (tokens : BackendTokens.t) :
  refresh request w = (Return tokens, w') ->
  exists tok user_data w1 new_access_token w2 t_access,
    Request.headers_get request "Authorization" = Some ("Bearer " ++ tok) /\
    tok <> "" /\
    verify_token env tok w = (Some user_data, w1) /\
    create_access_token env
      [("sub", TokenData.username_or_email user_data)] None w1
      = (new_access_token, w2) /\
    delta_fits minutes = true /\
    utcnow env w2 = (t_access, w') /\
    in_range (t_access + minutes) = true /\
    tokens =
      BackendTokens.mk
        (Token.mk new_access_token "bearer"
           (isoformat (t_access + minutes) ++ "Z"))
        (Token.mk tok "bearer" "").
Proof.
  intros H.
  destruct (refresh_header_cases request w)
    as [[_ E]|(h & Hh & _ & [[_ E]|[[_ E]|(t & -> & Hne & E)]])];
    rewrite E in H; try discriminate.
  destruct (presented_returned t w w' tokens H)
    as (ud & w1 & a & w2 & ta & Hv & Ha & Hd & Ht & Hr & ->).
  exists t, ud, w1, a, w2, ta. conjuncts; auto.
Qed.

(** Conversely, an authenticated form whose expiries are in range is
    answered with the payload. *)
Lemma login_returns (form_data : OAuth2PasswordRequestForm.t) (user : User.t)
    (access_token refresh_token : string) (t_access t_refresh : datetime)
    (w w1 w2 w3 w4 w5 : W) :
  authenticate_user env
    (OAuth2PasswordRequestForm.username form_data)
    (OAuth2PasswordRequestForm.password form_data) w = (Some user, w1) ->
  delta_fits minutes = true ->
  utcnow env (logger_error env (Some user) w1) = (t_access, w2) ->
  in_range (t_access + minutes) = true ->
  create_access_token env [("sub", User.username user)] (Some minutes) w2
    = (access_token, w3) ->
  create_refresh_token env [("sub", User.username user)] None w3
    = (refresh_token, w4) ->
  delta_fits days = true ->
  utcnow env w4 = (t_refresh, w5) ->
  in_range (t_refresh + days) = true ->
  login form_data w =
    (Return
       (LoginResponse.mk
          (UserDetails.mk (User.name user) (User.username user)
             (User.email user) (User.profile_image_url user))
          (BackendTokens.mk
             (Token.mk access_token "bearer"
                (isoformat (t_access + minutes) ++ "Z"))
             (Token.mk refresh_token "bearer"
                (isoformat (t_refresh + days) ++ "Z")))), w5).
Proof.
  intros Ea Hd E1 Hr1 E2 E3 Hdd E4 Hr2.
  rewrite login_cases, Ea. unfold timedelta_minutes, timedelta_days.
  rewrite (new_delta_fits _ Hd), (new_delta_fits _ Hdd), E1. cbv beta iota.
  rewrite (add_in_range _ _ Hr1). cbv beta iota.
  change (@Some timedelta) with (@Some Z). rewrite E2, E3, E4. cbv beta iota.
  rewrite (add_in_range _ _ Hr2). reflexivity.
Qed.

Lemma token_returns (form_data : OAuth2PasswordRequestForm.t) (user : User.t)
    (access_token : string) (t_access : datetime) (w w1 w2 w3 : W) :
  authenticate_user env
    (OAuth2PasswordRequestForm.username form_data)
    (OAuth2PasswordRequestForm.password form_data) w = (Some user, w1) ->
  delta_fits minutes = true ->
  utcnow env w1 = (t_access, w2) ->
  in_range (t_access + minutes) = true ->
  create_access_token env [("sub", User.username user)] (Some minutes) w2
    = (access_token, w3) ->
  token form_data w =
    (Return
       (Token.mk access_token "bearer"
          (isoformat (t_access + minutes) ++ "Z")), w3).
Proof.
  intros Ea Hd E1 Hr1 E2.
  rewrite token_cases, Ea. unfold timedelta_minutes.
  rewrite (new_delta_fits _ Hd), E1. cbv beta iota.
  rewrite (add_in_range _ _ Hr1). cbv beta iota.
  change (@Some timedelta) with (@Some Z). rewrite E2. reflexivity.
Qed.

(** *** What a raised exception tells about the run *)

(** A failure of the expiry arithmetic: the lifetime of [us] microseconds is
    no [timedelta], or added to some clock reading it is no [datetime]. *)
Lemma arithmetic_raised (us : Z) (w0 : W) (e : exception) :
  (new_delta us = Raise e \/
   exists d, new_delta us = Return d /\ add (fst (utcnow env w0)) d = Raise e) ->
  exc_class e = "OverflowError" /\
  expiry_fits (fst (utcnow env w0)) us = false.
Proof.
  unfold expiry_fits. intros [H|(d & Hd & H)].
  - apply new_delta_raises in H as [Hc Hf]. now rewrite Hf.
  - apply new_delta_inv in Hd as [-> _].
    apply add_raises in H as [-> Hf]. split; [reflexivity|].
    rewrite Hf. apply andb_false_r.
Qed.

Lemma login_raised (form_data : OAuth2PasswordRequestForm.t) (w w' : W)
    (e : exception) :
  login form_data w = (Raise e, w') ->
  (e = UnauthorizedException "Wrong username, email or password." /\
   exists w1,
     authenticate_user env
       (OAuth2PasswordRequestForm.username form_data)
       (OAuth2PasswordRequestForm.password form_data) w = (None, w1) /\
     w' = logger_error env None w1)
  \/ (exc_class e = "OverflowError" /\
      exists w0,
        expiry_fits (fst (utcnow env w0)) minutes = false \/
        expiry_fits (fst (utcnow env w0)) days = false).
Proof.
  intros H. rewrite login_cases in H.
  destruct (authenticate_user env _ _ w) as [[user|] w1];
    [|injection H as <- <-; left; eauto].
  right.
  destruct (timedelta_minutes ACCESS_TOKEN_EXPIRE_MINUTES) as [d|e0] eqn:Ed.
  2:{ injection H as <- <-.
      destruct (arithmetic_raised minutes w e0 (or_introl Ed)) as [Hc Hf].
      split; [exact Hc|]. exists w. now left. }
  destruct (utcnow env (logger_error env (Some user) w1)) as [t1 w2] eqn:E1.
  destruct (add t1 d) as [e1|e0] eqn:Ee1.
  2:{ injection H as <- <-.
      destruct (arithmetic_raised minutes (logger_error env (Some user) w1) e0)
        as [Hc Hf].
      { right. exists d. rewrite E1. now split. }
      split; [exact Hc|]. exists (logger_error env (Some user) w1). now left. }
  destruct (create_access_token env _ _ w2) as [a w3].
  destruct (create_refresh_token env _ None w3) as [r w4].
  destruct (timedelta_days (REFRESH_TOKEN_EXPIRE_DAYS settings)) as [dd|e0]
    eqn:Edd.
  2:{ injection H as <- <-.
      destruct (arithmetic_raised days w e0 (or_introl Edd)) as [Hc Hf].
      split; [exact Hc|]. exists w. now right. }
  destruct (utcnow env w4) as [t2 w5] eqn:E4.
  destruct (add t2 dd) as [e2|e0] eqn:Ee2; [discriminate|].
  injection H as <- <-.
  destruct (arithmetic_raised days w4 e0) as [Hc Hf].
  { right. exists dd. rewrite E4. now split. }
  split; [exact Hc|]. exists w4. now right.
Qed.

Lemma token_raised (form_data : OAuth2PasswordRequestForm.t) (w w' : W)
    (e : exception) :
  token form_data w = (Raise e, w') ->
  (e = UnauthorizedException "Wrong username, email or password." /\
   authenticate_user env
     (OAuth2PasswordRequestForm.username form_data)
     (OAuth2PasswordRequestForm.password form_data) w = (None, w'))
  \/ (exc_class e = "OverflowError" /\
      exists w0, expiry_fits (fst (utcnow env w0)) minutes = false).
Proof.
  intros H. rewrite token_cases in H.
  destruct (authenticate_user env _ _ w) as [[user|] w1];
    [|injection H as <- <-; left; eauto].
  right.
  destruct (timedelta_minutes ACCESS_TOKEN_EXPIRE_MINUTES) as [d|e0] eqn:Ed.
  2:{ injection H as <- <-.
      destruct (arithmetic_raised minutes w e0 (or_introl Ed)) as [Hc Hf].
      split; [exact Hc|]. now exists w. }
  destruct (utcnow env w1) as [t1 w2] eqn:E1.
  destruct (add t1 d) as [e1|e0] eqn:Ee1.
  2:{ injection H as <- <-.
      destruct (arithmetic_raised minutes w1 e0) as [Hc Hf].
      { right. exists d. rewrite E1. now split. }
      split; [exact Hc|]. now exists w1. }
  destruct (create_access_token env _ _ w2) as [a w3]. discriminate.
Qed.

Lemma presented_raised (tok : string) (w w' : W) (e : exception) :
  refresh_with tok w = (Raise e, w') ->
  (e = UnauthorizedException "Invalid refresh token." /\
   verify_token env tok w = (None, w'))
  \/ (exc_class e = "OverflowError" /\
      exists w0, expiry_fits (fst (utcnow env w0)) minutes = false).
Proof.
  unfold refresh_presented. intros H.
  destruct (verify_token env tok w) as [[ud|] w1];
    [|injection H as <- <-; left; eauto].
  right.
  destruct (create_access_token env _ None w1) as [a w2].
  destruct (timedelta_minutes ACCESS_TOKEN_EXPIRE_MINUTES) as [d|e0] eqn:Ed.
  2:{ injection H as <- <-.
      destruct (arithmetic_raised minutes w e0 (or_introl Ed)) as [Hc Hf].
      split; [exact Hc|]. now exists w. }
  destruct (utcnow env w2) as [t w3] eqn:Et.
  destruct (add t d) as [e1|e0] eqn:Ee1; [discriminate|].
  injection H as <- <-.
  destruct (arithmetic_raised minutes w2 e0) as [Hc Hf].
  { right. exists d. rewrite Et. now split. }
  split; [exact Hc|]. now exists w2.
Qed.

(** *** The refresh protocol *)


(** C7.  When the verifier resolves no user data for the presented
    credential, the refresh call is rejected with the invalid-token
    unauthorized failure, in the world the verifier left: no issuer ran. *)
Theorem refresh_rejects_unverified_token
    (request : Request.t) (tok : string) (w w1 : W) :
  Request.headers_get request "Authorization" = Some ("Bearer " ++ tok) ->
  tok <> "" ->
  verify_token env tok w = (None, w1) ->
  refresh request w =
    (Raise (UnauthorizedException "Invalid refresh token."), w1).
Proof.
  intros Hh Hne Hv. rewrite (refresh_bearer request tok w Hh Hne).
  unfold refresh_presented. now rewrite Hv.
Qed.

(** *** Login *)

(** C9.  A successful login pairs the details of the authenticated user with
    an access token and a refresh token, and every token any of the three
    routes emits has [token_type = "bearer"]. *)
Theorem login_response_shape :
  (forall (form_data : OAuth2PasswordRequestForm.t) (w w' : W)
          (response : LoginResponse.t),
      login form_data w = (Return response, w') ->
      exists user w1 w2 w3,
        authenticate_user env
          (OAuth2PasswordRequestForm.username form_data)
          (OAuth2PasswordRequestForm.password form_data) w = (Some user, w1) /\
        LoginResponse.user response =
          UserDetails.mk (User.name user) (User.username user)
            (User.email user) (User.profile_image_url user) /\
        snd (utcnow env (logger_error env (Some user) w1)) = w2 /\
        Token.access_token
          (BackendTokens.access_token (LoginResponse.backend_tokens response)) =
          fst (create_access_token env [("sub", User.username user)]
                 (Some (ACCESS_TOKEN_EXPIRE_MINUTES * US_PER_MINUTE)) w2) /\
        snd (create_access_token env [("sub", User.username user)]
               (Some (ACCESS_TOKEN_EXPIRE_MINUTES * US_PER_MINUTE)) w2) = w3 /\
        Token.access_token
          (BackendTokens.refresh_token (LoginResponse.backend_tokens response)) =
          fst (create_refresh_token env [("sub", User.username user)] None w3))
  /\
  (forall (route : Route) (w w' : W) (payload : Payload) (tok : Token.t),
      serve env ACCESS_TOKEN_EXPIRE_MINUTES settings route w
        = (Return payload, w') ->
      In tok (tokens_of payload) ->
      Token.token_type tok = "bearer").
Proof.
  split.
  - intros form_data w w' response H.
    destruct (login_returned _ _ _ _ H)
      as (user & w1 & t1 & w2 & a & w3 & r & w4 & t2
          & Ea & _ & E1 & _ & E2 & E3 & _ & _ & _ & ->).
    exists user, w1, w2, w3. rewrite E1, E2, E3. conjuncts; auto.
  - intros route w w' payload tok H Hin.
    destruct route as [form_data|form_data|request]; unfold serve, bind in H.
    + destruct (login_for_access_token env _ settings form_data w)
        as [[response|e] w0] eqn:E; [|discriminate].
      injection H as <- <-.
      destruct (login_returned _ _ _ _ E)
        as (user & w1 & t1 & w2 & a & w3 & r & w4 & t2
            & _ & _ & _ & _ & _ & _ & _ & _ & _ & ->).
      destruct Hin as [<-|[<-|[]]]; reflexivity.
    + destruct (get_access_token env _ form_data w)
        as [[tk|e] w0] eqn:E; [|discriminate].
      injection H as <- <-.
      destruct (token_returned _ _ _ _ E)
        as (user & w1 & t1 & w2 & a & _ & _ & _ & _ & _ & ->).
      destruct Hin as [<-|[]]; reflexivity.
    + destruct (refresh_access_token env _ request w)
        as [[tokens|e] w0] eqn:E; [|discriminate].
      injection H as <- <-.
      destruct (refresh_returned _ _ _ _ E)
        as (t & ud & w1 & a & w2 & ta & _ & _ & _ & _ & _ & _ & _ & ->).
      destruct Hin as [<-|[<-|[]]]; reflexivity.
Qed.

(** C5.  In a successful login the reported expiry of the access token is the
    clock reading the handler takes for it plus [ACCESS_TOKEN_EXPIRE_MINUTES]
    minutes, and the reported expiry of the refresh token is the clock
    reading the handler takes for it plus [REFRESH_TOKEN_EXPIRE_DAYS] days,
    each written by [isoformat] with ["Z"] appended. *)
Theorem login_reported_expiry
    (form_data : OAuth2PasswordRequestForm.t) (w w' : W)
    (response : LoginResponse.t) :
  login form_data w = (Return response, w') ->
  exists user w1 t_access w2 w3 w4 t_refresh,
    authenticate_user env
      (OAuth2PasswordRequestForm.username form_data)
      (OAuth2PasswordRequestForm.password form_data) w = (Some user, w1) /\
    utcnow env (logger_error env (Some user) w1) = (t_access, w2) /\
    snd (create_access_token env [("sub", User.username user)]
           (Some (ACCESS_TOKEN_EXPIRE_MINUTES * US_PER_MINUTE)) w2) = w3 /\
    snd (create_refresh_token env [("sub", User.username user)] None w3) = w4 /\
    utcnow env w4 = (t_refresh, w') /\
    Token.expires_at
      (BackendTokens.access_token (LoginResponse.backend_tokens response)) =
      isoformat (t_access + ACCESS_TOKEN_EXPIRE_MINUTES * US_PER_MINUTE) ++ "Z" /\
    Token.expires_at
      (BackendTokens.refresh_token (LoginResponse.backend_tokens response)) =
      isoformat (t_refresh + REFRESH_TOKEN_EXPIRE_DAYS settings * US_PER_DAY)
      ++ "Z".
Proof.
  intros H.
  destruct (login_returned _ _ _ _ H)
    as (user & w1 & t1 & w2 & a & w3 & r & w4 & t2
        & Ea & _ & E1 & _ & E2 & E3 & _ & E4 & _ & ->).
  exists user, w1, t1, w2, w3, w4, t2.
  rewrite E2, E3. conjuncts; auto.
Qed.

(** *** Expiry and failures over the three routes *)

(** C6.  With positive lifetimes, every expiry a handler reports for a token
    it issues is the instant [t + ttl] for the clock reading [t] the handler
    takes for that token, and [t < t + ttl].  (The refresh token that the
    refresh route echoes is not issued by the call and reports no expiry.) *)
Theorem issued_expiry_in_future :
  0 < ACCESS_TOKEN_EXPIRE_MINUTES ->
  0 < REFRESH_TOKEN_EXPIRE_DAYS settings ->
  (forall form_data w w' response,
      login form_data w = (Return response, w') ->
      exists user w1 t_access w2 w3 w4 t_refresh,
        authenticate_user env
          (OAuth2PasswordRequestForm.username form_data)
          (OAuth2PasswordRequestForm.password form_data) w = (Some user, w1) /\
        utcnow env (logger_error env (Some user) w1) = (t_access, w2) /\
        snd (create_access_token env [("sub", User.username user)]
               (Some (ACCESS_TOKEN_EXPIRE_MINUTES * US_PER_MINUTE)) w2) = w3 /\
        snd (create_refresh_token env [("sub", User.username user)] None w3)
          = w4 /\
        utcnow env w4 = (t_refresh, w') /\
        Token.expires_at
          (BackendTokens.access_token (LoginResponse.backend_tokens response))
          = isoformat (t_access + ACCESS_TOKEN_EXPIRE_MINUTES * US_PER_MINUTE)
            ++ "Z" /\
        t_access < t_access + ACCESS_TOKEN_EXPIRE_MINUTES * US_PER_MINUTE /\
        Token.expires_at
          (BackendTokens.refresh_token (LoginResponse.backend_tokens response))
          = isoformat
              (t_refresh + REFRESH_TOKEN_EXPIRE_DAYS settings * US_PER_DAY)
            ++ "Z" /\
        t_refresh
          < t_refresh + REFRESH_TOKEN_EXPIRE_DAYS settings * US_PER_DAY)
  /\
  (forall form_data w w' tok,
      token form_data w = (Return tok, w') ->
      exists user w1 t_access w2,
        authenticate_user env
          (OAuth2PasswordRequestForm.username form_data)
          (OAuth2PasswordRequestForm.password form_data) w = (Some user, w1) /\
        utcnow env w1 = (t_access, w2) /\
        Token.expires_at tok
          = isoformat (t_access + ACCESS_TOKEN_EXPIRE_MINUTES * US_PER_MINUTE)
            ++ "Z" /\
        t_access < t_access + ACCESS_TOKEN_EXPIRE_MINUTES * US_PER_MINUTE)
  /\
  (forall request w w' tokens,
      refresh request w = (Return tokens, w') ->
      exists presented user_data w1 w2 t_access,
        Request.headers_get request "Authorization"
          = Some ("Bearer " ++ presented) /\
        verify_token env presented w = (Some user_data, w1) /\
        snd (create_access_token env
               [("sub", TokenData.username_or_email user_data)] None w1) = w2 /\
        utcnow env w2 = (t_access, w') /\
        Token.expires_at (BackendTokens.access_token tokens)
          = isoformat (t_access + ACCESS_TOKEN_EXPIRE_MINUTES * US_PER_MINUTE)
            ++ "Z" /\
        t_access < t_access + ACCESS_TOKEN_EXPIRE_MINUTES * US_PER_MINUTE).
Proof.
  intros Hm Hd.
  assert (Hlt_m : forall t, t < t + minutes)
    by (intros t; unfold US_PER_MINUTE, US_PER_SECOND; lia).
  assert (Hlt_d : forall t, t < t + days)
    by (intros t; unfold US_PER_DAY, US_PER_SECOND; lia).
  conjuncts.
  - intros form_data w w' response H.
    destruct (login_returned _ _ _ _ H)
      as (user & w1 & t1 & w2 & a & w3 & r & w4 & t2
          & Ea & _ & E1 & _ & E2 & E3 & _ & E4 & _ & ->).
    exists user, w1, t1, w2, w3, w4, t2.
    rewrite E2, E3. conjuncts; auto.
  - intros form_data w w' tok H.
    destruct (token_returned _ _ _ _ H)
      as (user & w1 & t1 & w2 & a & Ea & _ & E1 & _ & _ & ->).
    exists user, w1, t1, w2. conjuncts; auto.
  - intros request w w' tokens H.
    destruct (refresh_returned _ _ _ _ H)
      as (t & ud & w1 & a & w2 & ta & Hh & _ & Hv & Ea & _ & Et & _ & ->).
    exists t, ud, w1, w2, ta. rewrite Ea. conjuncts; auto.
Qed.


End HandlerProperties.

(** *** Sample runs *)


Lemma refresh_rejects_unverified_token_run :
  let presented := "forged" in
  Request.headers_get (Sample.bearer presented) "Authorization"
    = Some ("Bearer " ++ presented) /\
  presented <> "" /\
  verify_token Sample.env presented Sample.t0 = (None, Sample.t0) /\
  refresh_access_token Sample.env 30 (Sample.bearer presented) Sample.t0
    = (Raise (UnauthorizedException "Invalid refresh token."), Sample.t0).
Proof.
  intros presented.
  assert (Hh : Request.headers_get (Sample.bearer presented) "Authorization"
               = Some ("Bearer " ++ presented)) by reflexivity.
  assert (Hne : presented <> "") by discriminate.
  assert (Hv : verify_token Sample.env presented Sample.t0
               = (None, Sample.t0)) by reflexivity.
  conjuncts; try assumption.
  exact (refresh_rejects_unverified_token Sample.env 30 _ _ _ _ Hh Hne Hv).
Defined.

Lemma login_response_shape_run :
  exists response w',
    login_for_access_token Sample.env 30 Sample.settings
      (OAuth2PasswordRequestForm.mk "alice@example.com" "secret") Sample.t0
      = (Return response, w') /\
    LoginResponse.user response
      = UserDetails.mk "Alice" "alice" "alice@example.com"
          "https://example.com/a.png" /\
    Token.token_type
      (BackendTokens.refresh_token (LoginResponse.backend_tokens response))
      = "bearer".
Proof.
  assert (E : exists response w',
             login_for_access_token Sample.env 30 Sample.settings
               (OAuth2PasswordRequestForm.mk "alice@example.com" "secret")
               Sample.t0 = (Return response, w'))
    by (eexists _, _; vm_compute; reflexivity).
  destruct E as (response & w' & E). exists response, w'.
  split; [exact E|]. split.
  - destruct (proj1 (login_response_shape Sample.env 30 Sample.settings)
                _ _ _ _ E) as (user & w1 & w2 & w3 & Ea & -> & _).
    vm_compute in Ea. injection Ea as <- <-. reflexivity.
  - apply (proj2 (login_response_shape Sample.env 30 Sample.settings)
             (PostLogin (OAuth2PasswordRequestForm.mk "alice@example.com"
                           "secret")) Sample.t0 w' (LoginPayload response)).
    + unfold serve, bind. now rewrite E.
    + right. left. reflexivity.
Defined.

Lemma login_reported_expiry_run :
  exists response w',
    login_for_access_token Sample.env 30 Sample.settings
      (OAuth2PasswordRequestForm.mk "alice" "secret") Sample.t0
      = (Return response, w') /\
    Token.expires_at
      (BackendTokens.access_token (LoginResponse.backend_tokens response))
      = isoformat (Sample.t0 + 30 * US_PER_MINUTE) ++ "Z" /\
    Token.expires_at
      (BackendTokens.refresh_token (LoginResponse.backend_tokens response))
      = isoformat (Sample.t0 + 3 + 7 * US_PER_DAY) ++ "Z".
Proof.
  assert (E : exists response w',
             login_for_access_token Sample.env 30 Sample.settings
               (OAuth2PasswordRequestForm.mk "alice" "secret")
               Sample.t0 = (Return response, w'))
    by (eexists _, _; vm_compute; reflexivity).
  destruct E as (response & w' & E). exists response, w'.
  split; [exact E|].
  destruct (login_reported_expiry Sample.env 30 Sample.settings _ _ _ _ E)
    as (user & w1 & ta & w2 & w3 & w4 & tr & Ea & E1 & E2 & E3 & E4 & Ha & Hr).
  vm_compute in Ea. injection Ea as <- <-.
  vm_compute in E1. injection E1 as <- <-.
  vm_compute in E2. subst w3. vm_compute in E3. subst w4.
  vm_compute in E4. injection E4 as <-.
  split; [exact Ha|exact Hr].
Defined.

Lemma issued_expiry_in_future_run :
  0 < 30 /\ 0 < REFRESH_TOKEN_EXPIRE_DAYS Sample.settings /\
  exists tokens w',
    refresh_access_token Sample.env 30
      (Sample.bearer "alice@2024-01-08T00:00:00+00:00") Sample.t0
      = (Return tokens, w') /\
    Token.expires_at (BackendTokens.access_token tokens)
      = isoformat (Sample.t0 + 2 + 30 * US_PER_MINUTE) ++ "Z" /\
    Sample.t0 + 2 < Sample.t0 + 2 + 30 * US_PER_MINUTE.
Proof.
  assert (Hm : 0 < 30) by reflexivity.
  assert (Hd : 0 < REFRESH_TOKEN_EXPIRE_DAYS Sample.settings) by reflexivity.
  conjuncts; try assumption.
  assert (E : exists tokens w',
             refresh_access_token Sample.env 30
               (Sample.bearer "alice@2024-01-08T00:00:00+00:00") Sample.t0
             = (Return tokens, w'))
    by (eexists _, _; vm_compute; reflexivity).
  destruct E as (tokens & w' & E). exists tokens, w'.
  split; [exact E|].
  destruct (proj2 (proj2 (issued_expiry_in_future Sample.env 30 Sample.settings
                            Hm Hd)) _ _ _ _ E)
    as (presented & ud & w1 & w2 & ta & Hh & Hv & Ea & Et & He & Hlt).
  vm_compute in Hh. injection Hh as <-.
  vm_compute in Hv. injection Hv as <- <-.
  vm_compute in Ea. subst w2.
  vm_compute in Et. injection Et as <-.
  split; [exact He|exact Hlt].
Defined.




(** ** Properties that depend on the collaborators of core/security.py *)

Section CollaboratorProperties.

Context {W : Type}.
Variable now : W -> datetime * W.
Variable find_by_username_or_email : string -> W -> option User.t * W.
Variable verify_password : User.t -> string -> bool.
Variable encode : Spec.Claims -> string.
Variable decode : string -> Spec.Claims + Spec.DecodeFailure.
Variable env : Collaborators W.
Variable ACCESS_TOKEN_EXPIRE_MINUTES : Z.
Variable settings : Settings.

Local Notation "'login'" :=
  (login_for_access_token env ACCESS_TOKEN_EXPIRE_MINUTES settings).
Local Notation "'refresh'" :=
  (refresh_access_token env ACCESS_TOKEN_EXPIRE_MINUTES).
Local Notation "'authenticate'" :=
  (Spec.authenticate find_by_username_or_email verify_password).
Local Notation "'verify'" :=
  (Spec.verify now find_by_username_or_email decode).

(** C4.  With [authenticate_user] as the specified authentication service,
    an unknown user and a known user with a wrong password both make
    [authenticate] yield [None], and both make the login handler raise the
    same exception: same class, same message. *)
Theorem login_failures_indistinguishable
    (unknown password_a known password_b : string) (user : User.t)
    (w_a w_a' w_b w_b' : W) :
  authenticate_user env = authenticate ->
  find_by_username_or_email unknown w_a = (None, w_a') ->
  find_by_username_or_email known w_b = (Some user, w_b') ->
  verify_password user password_b = false ->
  fst (authenticate unknown password_a w_a) = None /\
  fst (authenticate known password_b w_b) = None /\
  fst (login (OAuth2PasswordRequestForm.mk unknown password_a) w_a)
    = Raise (UnauthorizedException "Wrong username, email or password.") /\
  fst (login (OAuth2PasswordRequestForm.mk known password_b) w_b)
    = Raise (UnauthorizedException "Wrong username, email or password.").
Proof.
  intros Hauth Hmiss Hhit Hpw.
  assert (Ea : authenticate unknown password_a w_a = (None, w_a'))
    by (unfold Spec.authenticate; now rewrite Hmiss).
  assert (Eb : authenticate known password_b w_b = (None, w_b'))
    by (unfold Spec.authenticate; now rewrite Hhit, Hpw).
  conjuncts.
  - now rewrite Ea.
  - now rewrite Eb.
  - rewrite login_cases, Hauth. cbn [OAuth2PasswordRequestForm.username
      OAuth2PasswordRequestForm.password]. now rewrite Ea.
  - rewrite login_cases, Hauth. cbn [OAuth2PasswordRequestForm.username
      OAuth2PasswordRequestForm.password]. now rewrite Eb.
Qed.

(** C10.  In a successful refresh the access credential is created with no
    expiry delta, so with the specified issuer it carries the issuer's
    default lifetime from the issuer's own clock reading, while the reported
    [expires_at] is the handler's later clock reading plus
    [ACCESS_TOKEN_EXPIRE_MINUTES] minutes.  The two lifetimes agree exactly
    when the default is [ACCESS_TOKEN_EXPIRE_MINUTES] minutes; the two
    instants agree exactly when the default makes up for the time between
    the two readings, hence, when the readings coincide, exactly when the
    default is [ACCESS_TOKEN_EXPIRE_MINUTES] minutes. *)
Theorem refresh_reported_expiry_independent
    (default_ttl : timedelta) (request : Request.t) (w w' : W)
    (tokens : BackendTokens.t) :
  utcnow env = now ->
  create_access_token env
    = (fun data ttl => Spec.issue now encode default_ttl (Spec.sub_of data) ttl) ->
  refresh request w = (Return tokens, w') ->
  exists presented user_data w1 t_issue w2 t_report claims,
    Request.headers_get request "Authorization"
      = Some ("Bearer " ++ presented) /\
    verify_token env presented w = (Some user_data, w1) /\
    Token.access_token (BackendTokens.access_token tokens)
      = fst (create_access_token env
               [("sub", TokenData.username_or_email user_data)] None w1) /\
    now w1 = (t_issue, w2) /\
    now w2 = (t_report, w') /\
    claims = Spec.issued_claims default_ttl
               (TokenData.username_or_email user_data) None t_issue /\
    Token.access_token (BackendTokens.access_token tokens) = encode claims /\
    Spec.expires_at claims - Spec.issued_at claims = default_ttl /\
    Token.expires_at (BackendTokens.access_token tokens)
      = isoformat (t_report + ACCESS_TOKEN_EXPIRE_MINUTES * US_PER_MINUTE)
        ++ "Z" /\
    (Spec.expires_at claims - Spec.issued_at claims
       = (t_report + ACCESS_TOKEN_EXPIRE_MINUTES * US_PER_MINUTE) - t_report
     <-> default_ttl = ACCESS_TOKEN_EXPIRE_MINUTES * US_PER_MINUTE) /\
    (Spec.expires_at claims
       = t_report + ACCESS_TOKEN_EXPIRE_MINUTES * US_PER_MINUTE
     <-> default_ttl
         = ACCESS_TOKEN_EXPIRE_MINUTES * US_PER_MINUTE + (t_report - t_issue)) /\
    (t_issue = t_report ->
     (Spec.expires_at claims
        = t_report + ACCESS_TOKEN_EXPIRE_MINUTES * US_PER_MINUTE
      <-> default_ttl = ACCESS_TOKEN_EXPIRE_MINUTES * US_PER_MINUTE)).
Proof.
  intros Hnow Hissue H.
  destruct (refresh_returned env ACCESS_TOKEN_EXPIRE_MINUTES _ _ _ _ H)
    as (t & ud & w1 & a & w2 & tr & Hh & _ & Ev & Ea & _ & Et & _ & ->).
  rewrite Hnow in Et. rewrite Hissue in Ea. unfold Spec.issue in Ea.
  destruct (now w1) as [ti w2'] eqn:Ei. injection Ea as <- <-.
  exists t, ud, w1, ti, w2', tr,
    (Spec.issued_claims default_ttl (TokenData.username_or_email ud) None ti).
  rewrite Hissue. unfold Spec.issue. rewrite Ei.
  cbn [fst Token.access_token Token.expires_at BackendTokens.access_token
       Spec.issued_claims Spec.expires_at Spec.issued_at Spec.sub_of find
       fst snd].
  conjuncts; try reflexivity; try assumption; lia.
Qed.

(** C2, as the handler has it.  A missing or empty header, a header without
    the ["Bearer "] prefix and an empty remainder each have their own detail
    message; a credential the verifier fails, for whatever reason (expired,
    malformed or invalid), is reported with the one message
    ["Invalid refresh token."].  The four messages are pairwise distinct. *)
Theorem refresh_failure_reasons (request : Request.t) (w : W) :
  verify_token env = Spec.verify_token now find_by_username_or_email decode ->
  (PyStr.opt_truthy (Request.headers_get request "Authorization") = false ->
   fst (refresh request w)
     = Raise (UnauthorizedException "Authorization header missing.")) /\
  (forall h,
      Request.headers_get request "Authorization" = Some h ->
      h <> "" ->
      PyStr.startswith h "Bearer " = false ->
      fst (refresh request w)
        = Raise (UnauthorizedException
                   "Authorization header must start with 'Bearer '")) /\
  (Request.headers_get request "Authorization" = Some "Bearer " ->
   fst (refresh request w)
     = Raise (UnauthorizedException "Refresh token missing.")) /\
  (forall presented failure,
      Request.headers_get request "Authorization"
        = Some ("Bearer " ++ presented) ->
      presented <> "" ->
      fst (verify presented w) = inr failure ->
      fst (refresh request w)
        = Raise (UnauthorizedException "Invalid refresh token.")) /\
  NoDup ["Authorization header missing.";
         "Authorization header must start with 'Bearer '";
         "Refresh token missing.";
         "Invalid refresh token."].
Proof.
  intros Hverify. conjuncts.
  - intros Hf. run_handler. now rewrite Hf.
  - intros h Hh Hne Hp. run_handler. rewrite Hh. cbn [PyStr.opt_truthy].
    apply truthy_nonempty in Hne. rewrite Hne. cbn [negb]. now rewrite Hp.
  - intros Hh. run_handler. now rewrite Hh.
  - intros presented failure Hh Hne Hfail.
    rewrite (refresh_bearer env ACCESS_TOKEN_EXPIRE_MINUTES request presented
               w Hh Hne).
    unfold refresh_presented. rewrite Hverify. unfold Spec.verify_token.
    destruct (verify presented w) as [[user|f] w1]; [discriminate|reflexivity].
  - repeat constructor; cbn [In]; intuition discriminate.
Qed.

End CollaboratorProperties.

(** *** Sample runs *)

Lemma login_failures_indistinguishable_run :
  authenticate_user Sample.env
    = Spec.authenticate Sample.find_by_username_or_email Sample.verify_password /\
  Sample.find_by_username_or_email "bob" Sample.t0 = (None, Sample.t0) /\
  Sample.find_by_username_or_email "alice" Sample.t0
    = (Some Sample.alice, Sample.t0) /\
  Sample.verify_password Sample.alice "guess" = false /\
  fst (login_for_access_token Sample.env 30 Sample.settings
         (OAuth2PasswordRequestForm.mk "bob" "secret") Sample.t0)
  = fst (login_for_access_token Sample.env 30 Sample.settings
           (OAuth2PasswordRequestForm.mk "alice" "guess") Sample.t0).
Proof.
  assert (H0 : authenticate_user Sample.env
               = Spec.authenticate Sample.find_by_username_or_email
                   Sample.verify_password) by reflexivity.
  assert (H1 : Sample.find_by_username_or_email "bob" Sample.t0
               = (None, Sample.t0)) by reflexivity.
  assert (H2 : Sample.find_by_username_or_email "alice" Sample.t0
               = (Some Sample.alice, Sample.t0)) by reflexivity.
  assert (H3 : Sample.verify_password Sample.alice "guess" = false)
    by reflexivity.
  conjuncts; try assumption.
  destruct (login_failures_indistinguishable
              Sample.find_by_username_or_email Sample.verify_password
              Sample.env 30 Sample.settings
              "bob" "secret" "alice" "guess" Sample.alice
              Sample.t0 Sample.t0 Sample.t0 Sample.t0 H0 H1 H2 H3)
    as (_ & _ & Ha & Hb).
  now rewrite Ha, Hb.
Defined.

(** The handler configured with 15 minutes over an issuer whose default is 30:
    the credential expires at 00:30, the payload says 00:15. *)
Lemma refresh_reported_expiry_independent_run :
  utcnow Sample.env = Sample.now /\
  create_access_token Sample.env
    = (fun data ttl =>
         Spec.issue Sample.now Sample.encode (30 * US_PER_MINUTE)
           (Spec.sub_of data) ttl) /\
  exists tokens w',
    refresh_access_token Sample.env 15
      (Sample.bearer "alice@2024-01-08T00:00:00+00:00") Sample.t0
      = (Return tokens, w') /\
    Token.access_token (BackendTokens.access_token tokens)
      = "alice@2024-01-01T00:30:00.000001+00:00" /\
    Token.expires_at (BackendTokens.access_token tokens)
      = "2024-01-01T00:15:00.000002+00:00Z".
Proof.
  assert (H0 : utcnow Sample.env = Sample.now) by reflexivity.
  assert (H1 : create_access_token Sample.env
               = (fun data ttl =>
                    Spec.issue Sample.now Sample.encode (30 * US_PER_MINUTE)
                      (Spec.sub_of data) ttl)) by reflexivity.
  conjuncts; try assumption.
  assert (E : exists tokens w',
             refresh_access_token Sample.env 15
               (Sample.bearer "alice@2024-01-08T00:00:00+00:00") Sample.t0
             = (Return tokens, w'))
    by (eexists _, _; vm_compute; reflexivity).
  destruct E as (tokens & w' & E). exists tokens, w'.
  split; [exact E|].
  destruct (refresh_reported_expiry_independent Sample.now Sample.encode
              Sample.env 15 (30 * US_PER_MINUTE) _ _ _ _ H0 H1 E)
    as (presented & ud & w1 & ti & w2 & tr & claims
        & Hh & Hv & _ & Ei & Er & Hc & Ha & _ & He & _).
  vm_compute in Hh. injection Hh as <-.
  vm_compute in Hv. injection Hv as <- <-.
  vm_compute in Ei. injection Ei as <- <-.
  vm_compute in Er. injection Er as <- _.
  subst claims. rewrite Ha, He. split; vm_compute; reflexivity.
Defined.

Lemma refresh_failure_reasons_run :
  verify_token Sample.env
    = Spec.verify_token Sample.now Sample.find_by_username_or_email
        Sample.decode /\
  let stale := "alice@2023-12-31T00:00:00+00:00" in
  fst (Spec.verify Sample.now Sample.find_by_username_or_email Sample.decode
         stale Sample.t0) = inr Spec.Expired /\
  fst (refresh_access_token Sample.env 30 (Sample.bearer stale) Sample.t0)
    = Raise (UnauthorizedException "Invalid refresh token.").
Proof.
  assert (H0 : verify_token Sample.env
               = Spec.verify_token Sample.now Sample.find_by_username_or_email
                   Sample.decode) by reflexivity.
  split; [exact H0|]. intros stale.
  assert (H1 : fst (Spec.verify Sample.now Sample.find_by_username_or_email
                      Sample.decode stale Sample.t0) = inr Spec.Expired)
    by reflexivity.
  split; [exact H1|].
  destruct (refresh_failure_reasons Sample.now
              Sample.find_by_username_or_email Sample.decode Sample.env 30
              (Sample.bearer stale) Sample.t0 H0) as (_ & _ & _ & Hfail & _).
  apply (Hfail stale Spec.Expired); [reflexivity|discriminate|exact H1].
Defined.

(** C2 as stated fails: a request with an expired refresh token is rejected
    with exactly the failure of a request with a forged one.  The reported
    reason is the invalid-token reason, not an "expired" reason. *)
Lemma expired_token_reported_as_invalid :
  let stale := "alice@2023-12-31T00:00:00+00:00" in
  let verify :=
    Spec.verify Sample.now Sample.find_by_username_or_email Sample.decode in
  let refresh := refresh_access_token Sample.env 30 in
  fst (verify stale Sample.t0) = inr Spec.Expired /\
  fst (verify "forged" Sample.t0) = inr Spec.InvalidToken /\
  fst (refresh (Sample.bearer stale) Sample.t0)
    = Raise (UnauthorizedException "Invalid refresh token.") /\
  fst (refresh (Sample.bearer stale) Sample.t0)
    = fst (refresh (Sample.bearer "forged") Sample.t0) /\
  Spec.reported_reason (fst (refresh (Sample.bearer stale) Sample.t0))
    = Some Spec.ReasonInvalidToken /\
  Spec.reported_reason (fst (refresh (Sample.bearer stale) Sample.t0))
    <> Some Spec.ReasonExpired.
Proof.
  cbv zeta. conjuncts; try (vm_compute; reflexivity).
  vm_compute. discriminate.
Qed.

(** ** The format of the reported expiry *)

(** [isoformat] on known instants: the first and the last representable
    microsecond, a leap day, and a reading with a microsecond field. *)
Example isoformat_first : isoformat 0 = "0001-01-01T00:00:00+00:00".
Proof. reflexivity. Qed.

Example isoformat_last :
  isoformat (3652059 * US_PER_DAY - 1) = "9999-12-31T23:59:59.999999+00:00".
Proof. vm_compute. reflexivity. Qed.

Example isoformat_leap_day :
  isoformat (Sample.t0 + 59 * US_PER_DAY) = "2024-02-29T00:00:00+00:00".
Proof. vm_compute. reflexivity. Qed.

Example isoformat_microsecond :
  isoformat (Sample.t0 + 123456 + 30 * US_PER_MINUTE)
  = "2024-01-01T00:30:00.123456+00:00".
Proof. vm_compute. reflexivity. Qed.

(** The recogniser on well-formed and ill-formed timestamps. *)
Example iso8601_accepts :
  forallb Iso8601.is_iso8601_utc
    ["2024-01-01T00:30:00Z"; "2024-01-01T00:30:00+00:00";
     "2024-02-29T23:59:60.5Z"; "2024-01-01T00:30:00.123456+00:00";
     "2024-01-01T00:30:00,5+00"; "20240101T003000Z";
     "20240101T003000.123456+0000"] = true.
Proof. reflexivity. Qed.

Example iso8601_rejects :
  existsb Iso8601.is_iso8601_utc
    ["2024-01-01T00:30:00"; "2024-01-01T00:30:00+01:00";
     "2023-02-29T00:00:00Z"; "2024-01-01 00:30:00Z";
     "2024-01-01T00:30:00.Z"; "2024-01-01T00:30:00Z+00:00";
     "2024-01-01T00:30:00+00:00Z"; "2024-01-01T00:30:00.000003+00:00Z"]
  = false.
Proof. reflexivity. Qed.

Lemma append_assoc (a b c : string) : (a ++ b) ++ c = a ++ (b ++ c).
Proof. induction a as [|x a IH]; simpl; [reflexivity|now rewrite IH]. Qed.

Lemma append_snoc_inj (a b : string) (x y : ascii) :
  a ++ String x "" = b ++ String y "" -> a = b /\ x = y.
Proof.
  revert b. induction a as [|c a IH]; intros [|d b] H; simpl in H.
  - injection H as ->. now split.
  - injection H as -> H. destruct b; discriminate.
  - injection H as -> H. destruct a; discriminate.
  - injection H as -> H. apply IH in H as [-> ->]. now split.
Qed.

Module Iso8601Facts.
Import Iso8601.

Lemma no_plus_app (a b : string) :
  no_plus (a ++ b) = no_plus a && no_plus b.
Proof.
  induction a as [|c a IH]; simpl; [reflexivity|].
  now rewrite IH, andb_assoc.
Qed.

Lemma digit_not_plus (c : ascii) : is_digit c = true -> Ascii.eqb c "+" = false.
Proof.
  intros H. destruct (Ascii.eqb_spec c "+") as [->|]; [discriminate|reflexivity].
Qed.

Lemma consumes_refl (s : string) : consumes s s.
Proof. now exists "". Qed.

Lemma consumes_trans (s r q : string) :
  consumes s r -> consumes r q -> consumes s q.
Proof.
  intros (p1 & -> & H1) (p2 & -> & H2). exists (p1 ++ p2).
  split; [now rewrite append_assoc|]. now rewrite no_plus_app, H1, H2.
Qed.

Lemma consumes_char (c : ascii) (s : string) :
  Ascii.eqb c "+" = false -> consumes (String c s) s.
Proof.
  intros H. exists (String c ""). split; [reflexivity|]. simpl. now rewrite H.
Qed.

Lemma digits_consumes (n : nat) (acc : Z) (s : string) (v : Z) (r : string) :
  digits n acc s = Some (v, r) -> consumes s r.
Proof.
  revert acc s. induction n as [|n IH]; intros acc s H; simpl in H.
  - injection H as _ ->. apply consumes_refl.
  - destruct s as [|c s]; [discriminate|].
    destruct (is_digit c) eqn:Hd; [|discriminate].
    eapply consumes_trans; [|eapply IH; exact H].
    apply consumes_char. now apply digit_not_plus.
Qed.

Lemma lit_consumes (c : ascii) (s r : string) :
  Ascii.eqb c "+" = false -> lit c s = Some r -> consumes s r.
Proof.
  intros Hc H. destruct s as [|d s]; simpl in H; [discriminate|].
  destruct (Ascii.eqb_spec c d) as [<-|]; [|discriminate].
  injection H as ->. now apply consumes_char.
Qed.

Lemma skip_digits_consumes (s : string) : consumes s (skip_digits s).
Proof.
  induction s as [|c s IH]; simpl; [apply consumes_refl|].
  destruct (is_digit c) eqn:Hd; [|apply consumes_refl].
  eapply consumes_trans; [|exact IH].
  apply consumes_char. now apply digit_not_plus.
Qed.

Lemma fraction_consumes (s r : string) : fraction s = Some r -> consumes s r.
Proof.
  unfold fraction. intros H.
  destruct s as [|c s]; [injection H as <-; apply consumes_refl|].
  destruct (is_decimal_sign c) eqn:Hc.
  - destruct s as [|d s]; [discriminate|].
    destruct (is_digit d) eqn:Hd; [|discriminate]. injection H as <-.
    eapply consumes_trans.
    { apply consumes_char. unfold is_decimal_sign in Hc.
      apply orb_true_iff in Hc as [Hc|Hc];
        apply Ascii.eqb_eq in Hc; subst c; reflexivity. }
    eapply consumes_trans; [apply consumes_char; now apply digit_not_plus|].
    apply skip_digits_consumes.
  - injection H as <-. apply consumes_refl.
Qed.

Ltac step_parser H :=
  match type of H with
  | obind (digits ?n ?a ?s) _ = Some _ =>
      let v := fresh "v" in let r := fresh "r" in let E := fresh "E" in
      destruct (digits n a s) as [[v r]|] eqn:E; cbn [obind] in H;
      [apply digits_consumes in E|discriminate]
  | obind (lit ?c ?s) _ = Some _ =>
      let r := fresh "r" in let E := fresh "E" in
      destruct (lit c s) as [r|] eqn:E; cbn [obind] in H;
      [apply lit_consumes in E; [|reflexivity]|discriminate]
  end.

Ltac finish_parser H :=
  repeat step_parser H;
  match type of H with (if ?b then _ else _) = _ => destruct b end;
    [|discriminate];
  apply fraction_consumes in H;
  repeat (eapply consumes_trans; [eassumption|]); apply consumes_refl.

Lemma extended_consumes (s r : string) : extended s = Some r -> consumes s r.
Proof. unfold extended. intros H. finish_parser H. Qed.

Lemma basic_consumes (s r : string) : basic s = Some r -> consumes s r.
Proof. unfold basic. intros H. finish_parser H. Qed.

(** A designator that follows a prefix without a plus sign cannot end a
    string that ends with an offset followed by ["Z"]. *)
Lemma designator_after_offset (body p zone : string) :
  body ++ "+00:00Z" = p ++ zone ->
  no_plus p = true ->
  utc_designator zone = false.
Proof.
  intros Hs Hp. destruct (utc_designator zone) eqn:E; [exfalso|reflexivity].
  change (body ++ "+00:00Z") with (body ++ ("+00:00" ++ "Z")) in Hs.
  rewrite <- append_assoc in Hs.
  unfold utc_designator in E.
  repeat (apply orb_true_iff in E as [E|E]);
    apply String.eqb_eq in E; subst zone.
  - apply append_snoc_inj in Hs as [<- _].
    rewrite no_plus_app in Hp. apply andb_true_iff in Hp as [_ Hp].
    discriminate.
  - change (p ++ "+00:00") with (p ++ ("+00:0" ++ "0")) in Hs.
    rewrite <- append_assoc in Hs. apply append_snoc_inj in Hs as [_ Hs].
    discriminate.
  - change (p ++ "+0000") with (p ++ ("+000" ++ "0")) in Hs.
    rewrite <- append_assoc in Hs. apply append_snoc_inj in Hs as [_ Hs].
    discriminate.
  - change (p ++ "+00") with (p ++ ("+0" ++ "0")) in Hs.
    rewrite <- append_assoc in Hs. apply append_snoc_inj in Hs as [_ Hs].
    discriminate.
Qed.

(** No timestamp ends with a numeric offset followed by ["Z"]. *)
Lemma offset_then_z_rejected (body : string) :
  is_iso8601_utc (body ++ "+00:00Z") = false.
Proof.
  unfold is_iso8601_utc, zone_is_utc. apply orb_false_iff. split.
  - destruct (extended (body ++ "+00:00Z")) as [zone|] eqn:L; [|reflexivity].
    apply extended_consumes in L as (p & Hs & Hp).
    now apply (designator_after_offset body p zone).
  - destruct (basic (body ++ "+00:00Z")) as [zone|] eqn:L; [|reflexivity].
    apply basic_consumes in L as (p & Hs & Hp).
    now apply (designator_after_offset body p zone).
Qed.

End Iso8601Facts.

Lemma isoformat_offset (t : datetime) :
  exists body, isoformat t = body ++ "+00:00".
Proof.
  unfold isoformat. destruct (ord2ymd _) as [[year month] day].
  rewrite <- !append_assoc. eexists. reflexivity.
Qed.

Lemma reported_expiry_rejected (t : datetime) :
  Iso8601.is_iso8601_utc (isoformat t ++ "Z") = false.
Proof.
  destruct (isoformat_offset t) as [body ->]. rewrite append_assoc.
  apply Iso8601Facts.offset_then_z_rejected.
Qed.

Section ExpiryFormat.

Context {W : Type}.
Variable env : Collaborators W.
Variable ACCESS_TOKEN_EXPIRE_MINUTES : Z.
Variable settings : Settings.

(** C3 fails on every run.  Each non-empty [expires_at] a route emits is an
    [isoformat] string, which already ends with the offset ["+00:00"], with
    ["Z"] appended: a second zone designator, so not an ISO-8601 timestamp. *)
Theorem emitted_expiry_not_iso8601
    (route : Route) (w w' : W) (payload : Payload) (tok : Token.t) :
  serve env ACCESS_TOKEN_EXPIRE_MINUTES settings route w = (Return payload, w') ->
  In tok (tokens_of payload) ->
  Token.expires_at tok <> "" ->
  (exists body, Token.expires_at tok = body ++ "+00:00Z") /\
  Iso8601.is_iso8601_utc (Token.expires_at tok) = false.
Proof.
  intros H Hin Hne.
  assert (Hiso : exists t, Token.expires_at tok = isoformat t ++ "Z").
  { destruct route as [form_data|form_data|request]; unfold serve, bind in H.
    - destruct (login_for_access_token env _ settings form_data w)
        as [[response|e] w0] eqn:E; [|discriminate].
      injection H as <- <-.
      destruct (login_returned _ _ _ _ _ _ _ E)
        as (user & w1 & t1 & w2 & a & w3 & r & w4 & t2
            & _ & _ & _ & _ & _ & _ & _ & _ & _ & ->).
      destruct Hin as [<-|[<-|[]]]; eexists; reflexivity.
    - destruct (get_access_token env _ form_data w)
        as [[tk|e] w0] eqn:E; [|discriminate].
      injection H as <- <-.
      destruct (token_returned _ _ _ _ _ _ E)
        as (user & w1 & t1 & w2 & a & _ & _ & _ & _ & _ & ->).
      destruct Hin as [<-|[]]; eexists; reflexivity.
    - destruct (refresh_access_token env _ request w)
        as [[tokens|e] w0] eqn:E; [|discriminate].
      injection H as <- <-.
      destruct (refresh_returned _ _ _ _ _ _ E)
        as (t & ud & w1 & a & w2 & ta & _ & _ & _ & _ & _ & _ & _ & ->).
      destruct Hin as [<-|[<-|[]]]; [eexists; reflexivity|].
      now elim Hne. }
  destruct Hiso as [t ->]. split.
  - destruct (isoformat_offset t) as [body ->]. exists body.
    now rewrite append_assoc.
  - apply reported_expiry_rejected.
Qed.

End ExpiryFormat.

(** The sample login at 2024-01-01T00:00:00 UTC: the expiry it reports, and
    the same string without the appended ["Z"]. *)
Lemma emitted_expiry_not_iso8601_run :
  exists response w',
    login_for_access_token Sample.env 30 Sample.settings
      (OAuth2PasswordRequestForm.mk "alice" "secret") Sample.t0
      = (Return response, w') /\
    Token.expires_at
      (BackendTokens.access_token (LoginResponse.backend_tokens response))
      = "2024-01-01T00:30:00+00:00Z" /\
    Iso8601.is_iso8601_utc
      (Token.expires_at
         (BackendTokens.access_token (LoginResponse.backend_tokens response)))
      = false /\
    Iso8601.is_iso8601_utc "2024-01-01T00:30:00+00:00" = true /\
    Iso8601.is_iso8601_utc "2024-01-01T00:30:00Z" = true.
Proof.
  assert (E : exists response w',
             login_for_access_token Sample.env 30 Sample.settings
               (OAuth2PasswordRequestForm.mk "alice" "secret")
               Sample.t0 = (Return response, w')
             /\ Token.expires_at
                  (BackendTokens.access_token
                     (LoginResponse.backend_tokens response))
                = "2024-01-01T00:30:00+00:00Z")
    by (eexists _, _; split; vm_compute; reflexivity).
  destruct E as (response & w' & E & Hs). exists response, w'.
  conjuncts; try assumption; try reflexivity.
  apply (emitted_expiry_not_iso8601 Sample.env 30 Sample.settings
           (PostLogin (OAuth2PasswordRequestForm.mk "alice" "secret"))
           Sample.t0 w' (LoginPayload response)).
  - unfold serve, bind. now rewrite E.
  - left. reflexivity.
  - rewrite Hs. discriminate.
Defined.

(** * Further properties of the handlers *)

(** The refresh handler as one equation. *)
Lemma refresh_unfold {W : Type} (env : Collaborators W)
    (ACCESS_TOKEN_EXPIRE_MINUTES : Z) (request : Request.t) (w : W) :
  refresh_access_token env ACCESS_TOKEN_EXPIRE_MINUTES request w =
    match Request.headers_get request "Authorization" with
    | None => (Raise (UnauthorizedException "Authorization header missing."), w)
    | Some h =>
        if negb (PyStr.truthy h) then
          (Raise (UnauthorizedException "Authorization header missing."), w)
        else if negb (PyStr.startswith h "Bearer ") then
          (Raise (UnauthorizedException
                    "Authorization header must start with 'Bearer '"), w)
        else if negb (PyStr.truthy (PyStr.slice_from 7 h)) then
          (Raise (UnauthorizedException "Refresh token missing."), w)
        else
          refresh_presented env ACCESS_TOKEN_EXPIRE_MINUTES
            (PyStr.slice_from 7 h) w
    end.
Proof.
  run_handler. unfold refresh_presented.
  destruct (Request.headers_get request "Authorization") as [h|];
    [|reflexivity].
  cbn [PyStr.opt_truthy].
  destruct (negb (PyStr.truthy h)); [reflexivity|].
  destruct (negb (PyStr.startswith h "Bearer ")); [reflexivity|].
  destruct (negb (PyStr.truthy (PyStr.slice_from 7 h))); [reflexivity|].
  destruct (verify_token env (PyStr.slice_from 7 h) w) as [[ud|] w1];
    [|reflexivity].
  destruct (create_access_token env _ None w1) as [a w2].
  destruct (timedelta_minutes ACCESS_TOKEN_EXPIRE_MINUTES) as [d|e];
    [|reflexivity].
  destruct (utcnow env w2) as [t w3].
  destruct (add t d); reflexivity.
Qed.

Section Interference.

Context {W : Type}.
Variables env env' : Collaborators W.
Variables ACCESS_TOKEN_EXPIRE_MINUTES ACCESS_TOKEN_EXPIRE_MINUTES' : Z.
Variables settings settings' : Settings.

(** X1.  A refresh request whose Authorization header is not ["Bearer "]
    followed by a non-empty credential is rejected before any collaborator
    is consulted: the world is left as it was, and the failure is the same
    whatever the collaborators and the configured lifetime are. *)
Theorem refresh_header_rejection_is_pure (request : Request.t) (w : W) :
  (forall tok,
      Request.headers_get request "Authorization" = Some ("Bearer " ++ tok) ->
      tok = "") ->
  (exists e,
      refresh_access_token env ACCESS_TOKEN_EXPIRE_MINUTES request w
        = (Raise e, w)) /\
  refresh_access_token env' ACCESS_TOKEN_EXPIRE_MINUTES' request w
    = refresh_access_token env ACCESS_TOKEN_EXPIRE_MINUTES request w.
Proof.
  intros Hbad. rewrite !refresh_unfold.
  destruct (Request.headers_get request "Authorization") as [h|];
    [|split; [eexists|]; reflexivity].
  destruct (PyStr.truthy h); cbn [negb]; [|split; [eexists|]; reflexivity].
  destruct (PyStr.startswith h "Bearer ") eqn:Hp; cbn [negb];
    [|split; [eexists|]; reflexivity].
  destruct (PyStr.truthy (PyStr.slice_from 7 h)) eqn:Ht; cbn [negb];
    [|split; [eexists|]; reflexivity].
  exfalso. apply startswith_bearer_inv in Hp.
  rewrite Hp in Hbad. specialize (Hbad _ eq_refl).
  rewrite Hbad in Ht. discriminate.
Qed.

(** X2.  The refresh handler consults only the verifier, the access-token
    issuer and the clock: with those three unchanged, its outcome and final
    world are the same whatever [authenticate_user], [logger_error] and
    [create_refresh_token] are.  It never checks a password, never logs and
    never issues a refresh token. *)
Theorem refresh_never_rotates (request : Request.t) (w : W) :
  verify_token env' = verify_token env ->
  create_access_token env' = create_access_token env ->
  utcnow env' = utcnow env ->
  refresh_access_token env' ACCESS_TOKEN_EXPIRE_MINUTES request w
    = refresh_access_token env ACCESS_TOKEN_EXPIRE_MINUTES request w.
Proof.
  intros Hv Ha Hn. rewrite !refresh_unfold. unfold refresh_presented.
  now rewrite Hv, Ha, Hn.
Qed.

(** X3.  A request rejected as unauthorized never reached the issuers, the
    handler's own reading of the clock or the expiry arithmetic: if a route
    raises [UnauthorizedException], it raises the same exception and leaves
    the same world under any issuers, any clock and any configured
    lifetimes, the authentication service, the logger and the verifier being
    the same. *)
Theorem failures_reach_no_issuer
    (route : Route) (w w' : W) (e : exception) :
  authenticate_user env' = authenticate_user env ->
  logger_error env' = logger_error env ->
  verify_token env' = verify_token env ->
  serve env ACCESS_TOKEN_EXPIRE_MINUTES settings route w = (Raise e, w') ->
  exc_class e = "UnauthorizedException" ->
  serve env' ACCESS_TOKEN_EXPIRE_MINUTES' settings' route w = (Raise e, w').
Proof.
  intros Ha Hl Hv H Hc.
  assert (Hno : exc_class e <> "OverflowError") by (rewrite Hc; discriminate).
  destruct route as [form_data|form_data|request]; unfold serve, bind in *.
  - destruct (login_for_access_token env _ settings form_data w)
      as [[response|e0] w0] eqn:E; [discriminate|].
    injection H as <- <-.
    destruct (login_raised _ _ _ _ _ _ _ E) as [(-> & w1 & Ea & ->)|[Ho _]];
      [|now elim Hno].
    rewrite login_cases, Ha, Hl, Ea. reflexivity.
  - destruct (get_access_token env _ form_data w)
      as [[tk|e0] w0] eqn:E; [discriminate|].
    injection H as <- <-.
    destruct (token_raised _ _ _ _ _ _ E) as [(-> & Ea)|[Ho _]];
      [|now elim Hno].
    rewrite token_cases, Ha, Ea. reflexivity.
  - destruct (refresh_access_token env _ request w)
      as [[tokens|e0] w0] eqn:E; [discriminate|].
    injection H as <- <-.
    assert (G : refresh_access_token env' ACCESS_TOKEN_EXPIRE_MINUTES' request w
                = (Raise e0, w0)); [|now rewrite G].
    rewrite refresh_unfold in *.
    destruct (Request.headers_get request "Authorization") as [h|];
      [|exact E].
    destruct (negb (PyStr.truthy h)); [exact E|].
    destruct (negb (PyStr.startswith h "Bearer ")); [exact E|].
    destruct (negb (PyStr.truthy (PyStr.slice_from 7 h))); [exact E|].
    destruct (presented_raised _ _ _ _ _ _ E) as [(-> & Ev)|[Ho _]];
      [|now elim Hno].
    unfold refresh_presented. rewrite Hv, Ev. reflexivity.
Qed.

End Interference.

Section Composition.

Context {W : Type}.
Variable env : Collaborators W.
Variable ACCESS_TOKEN_EXPIRE_MINUTES : Z.
Variable settings : Settings.

Local Notation "'login'" :=
  (login_for_access_token env ACCESS_TOKEN_EXPIRE_MINUTES settings).
Local Notation "'token'" := (get_access_token env ACCESS_TOKEN_EXPIRE_MINUTES).
Local Notation "'refresh'" :=
  (refresh_access_token env ACCESS_TOKEN_EXPIRE_MINUTES).

(** X4.  Where the error log is a part of the world that only
    [logger_error] writes, a login call, successful or not, appends exactly
    one record to it, the result of [authenticate_user]; the token and
    refresh handlers leave the log as it was. *)
Theorem login_logs_authentication_result
    (log_of : W -> list (option User.t))
    (form_data : OAuth2PasswordRequestForm.t) (request : Request.t) (w : W) :
  (forall user w, log_of (logger_error env user w) = (log_of w ++ [user])%list) ->
  (forall u p w, log_of (snd (authenticate_user env u p w)) = log_of w) ->
  (forall w, log_of (snd (utcnow env w)) = log_of w) ->
  (forall d ttl w, log_of (snd (create_access_token env d ttl w)) = log_of w) ->
  (forall d ttl w, log_of (snd (create_refresh_token env d ttl w)) = log_of w) ->
  (forall tok w, log_of (snd (verify_token env tok w)) = log_of w) ->
  log_of (snd (login form_data w))
    = (log_of w
       ++ [fst (authenticate_user env
                  (OAuth2PasswordRequestForm.username form_data)
                  (OAuth2PasswordRequestForm.password form_data) w)])%list /\
  log_of (snd (token form_data w)) = log_of w /\
  log_of (snd (refresh request w)) = log_of w.
Proof.
  intros Hlog Hauth Hnow Hacc Href Hver. conjuncts.
  - rewrite login_cases.
    specialize (Hauth (OAuth2PasswordRequestForm.username form_data)
                  (OAuth2PasswordRequestForm.password form_data) w).
    destruct (authenticate_user env _ _ w) as [[user|] w1]; cbn [fst snd] in *.
    + destruct (timedelta_minutes ACCESS_TOKEN_EXPIRE_MINUTES) as [d|e0];
        [|cbn [snd]; now rewrite Hlog, Hauth].
      pose proof (Hnow (logger_error env (Some user) w1)) as H1.
      destruct (utcnow env (logger_error env (Some user) w1)) as [t1 w2].
      cbn [fst snd] in *.
      destruct (add t1 d) as [e1|e0];
        [|cbn [snd]; now rewrite H1, Hlog, Hauth].
      pose proof (Hacc [("sub", User.username user)] (Some d) w2) as H2.
      destruct (create_access_token env _ _ w2) as [a w3].
      pose proof (Href [("sub", User.username user)] None w3) as H3.
      destruct (create_refresh_token env _ None w3) as [r w4].
      cbn [fst snd] in *.
      destruct (timedelta_days (REFRESH_TOKEN_EXPIRE_DAYS settings))
        as [dd|e0]; [|cbn [snd]; now rewrite H3, H2, H1, Hlog, Hauth].
      pose proof (Hnow w4) as H4.
      destruct (utcnow env w4) as [t2 w5]. cbn [fst snd] in *.
      destruct (add t2 dd); cbn [snd]; now rewrite H4, H3, H2, H1, Hlog, Hauth.
    + now rewrite Hlog, Hauth.
  - rewrite token_cases.
    specialize (Hauth (OAuth2PasswordRequestForm.username form_data)
                  (OAuth2PasswordRequestForm.password form_data) w).
    destruct (authenticate_user env _ _ w) as [[user|] w1]; cbn [fst snd] in *;
      [|exact Hauth].
    destruct (timedelta_minutes ACCESS_TOKEN_EXPIRE_MINUTES) as [d|e0];
      [|exact Hauth].
    pose proof (Hnow w1) as H1. destruct (utcnow env w1) as [t1 w2].
    cbn [fst snd] in *.
    destruct (add t1 d) as [e1|e0]; [|cbn [snd]; now rewrite H1].
    pose proof (Hacc [("sub", User.username user)] (Some d) w2) as H2.
    destruct (create_access_token env _ _ w2) as [a w3]. cbn [fst snd] in *.
    now rewrite H2, H1.
  - rewrite refresh_unfold. unfold refresh_presented.
    destruct (Request.headers_get request "Authorization") as [h|];
      [|reflexivity].
    destruct (negb (PyStr.truthy h)); [reflexivity|].
    destruct (negb (PyStr.startswith h "Bearer ")); [reflexivity|].
    destruct (negb (PyStr.truthy (PyStr.slice_from 7 h))); [reflexivity|].
    pose proof (Hver (PyStr.slice_from 7 h) w) as H1.
    destruct (verify_token env (PyStr.slice_from 7 h) w) as [[ud|] w1];
      cbn [fst snd] in *; [|exact H1].
    pose proof (Hacc [("sub", TokenData.username_or_email ud)] None w1) as H2.
    destruct (create_access_token env _ None w1) as [a w2].
    cbn [fst snd] in *.
    destruct (timedelta_minutes ACCESS_TOKEN_EXPIRE_MINUTES) as [d|e0];
      [|cbn [snd]; now rewrite H2].
    pose proof (Hnow w2) as H3. destruct (utcnow env w2) as [t w3].
    cbn [fst snd] in *.
    destruct (add t d); cbn [snd]; now rewrite H3, H2.
Qed.

(** X5.  The login and token handlers use the submitted form only to
    authenticate: two forms on which [authenticate_user] gives the same
    result (say the username and the e-mail address of one user) get the
    same response and leave the same world.  Neither the submitted name nor
    the password reaches the issuers or the payload. *)
Theorem response_depends_on_authentication_only
    (form_a form_b : OAuth2PasswordRequestForm.t) (w : W) :
  authenticate_user env
    (OAuth2PasswordRequestForm.username form_a)
    (OAuth2PasswordRequestForm.password form_a) w
  = authenticate_user env
      (OAuth2PasswordRequestForm.username form_b)
      (OAuth2PasswordRequestForm.password form_b) w ->
  login form_a w = login form_b w /\ token form_a w = token form_b w.
Proof.
  intros H. now rewrite !login_cases, !token_cases, H.
Qed.

(** X6.  When logging leaves the world as it was, the token route answers a
    form as the login route does for its access token: both fail with the
    same exception, or the [Token] of one is the access token of the other,
    or the token route returns while login fails with [OverflowError] on the
    expiry of the refresh token, whose lifetime is then out of range.  The
    token route never fails where login returns. *)
Theorem token_route_agrees_with_login
    (form_data : OAuth2PasswordRequestForm.t) (w : W) :
  (forall user w, logger_error env user w = w) ->
  match fst (login form_data w), fst (token form_data w) with
  | Return response, Return tok =>
      BackendTokens.access_token (LoginResponse.backend_tokens response) = tok
  | Raise e, Raise e' => e = e'
  | Raise e, Return _ =>
      exc_class e = "OverflowError" /\
      exists w0,
        expiry_fits (fst (utcnow env w0))
          (REFRESH_TOKEN_EXPIRE_DAYS settings * US_PER_DAY) = false
  | Return _, Raise _ => False
  end.
Proof.
  intros Hlog. rewrite login_cases, token_cases.
  destruct (authenticate_user env _ _ w) as [[user|] w1]; [|reflexivity].
  rewrite Hlog.
  destruct (timedelta_minutes ACCESS_TOKEN_EXPIRE_MINUTES) as [d|e0];
    [|reflexivity].
  destruct (utcnow env w1) as [t1 w2].
  destruct (add t1 d) as [e1|e0]; [|reflexivity].
  destruct (create_access_token env _ _ w2) as [a w3].
  destruct (create_refresh_token env _ None w3) as [r w4].
  destruct (timedelta_days (REFRESH_TOKEN_EXPIRE_DAYS settings)) as [dd|e0]
    eqn:Edd.
  2:{ cbn [fst].
      destruct (arithmetic_raised env _ w e0 (or_introl Edd)) as [Hc Hf].
      split; [exact Hc|]. now exists w. }
  destruct (utcnow env w4) as [t2 w5] eqn:E4.
  destruct (add t2 dd) as [e2|e0] eqn:Ee2; [reflexivity|].
  cbn [fst].
  destruct (arithmetic_raised env (REFRESH_TOKEN_EXPIRE_DAYS settings * US_PER_DAY)
              w4 e0) as [Hc Hf].
  { right. exists dd. rewrite E4. now split. }
  split; [exact Hc|]. now exists w4.
Qed.

(** X7.  The refresh token of a successful refresh is exactly the
    Authorization header of the request without its first seven characters:
    it is non-empty, the header is ["Bearer "] followed by it, and any
    request that presents it again behind ["Bearer "] is treated as the
    original request is, from every world. *)
Theorem echoed_token_can_be_presented_again
    (request : Request.t) (w w' : W) (tokens : BackendTokens.t) :
  refresh request w = (Return tokens, w') ->
  let echoed := Token.access_token (BackendTokens.refresh_token tokens) in
  echoed <> "" /\
  Request.headers_get request "Authorization" = Some ("Bearer " ++ echoed) /\
  forall request' w0,
    Request.headers_get request' "Authorization" = Some ("Bearer " ++ echoed) ->
    refresh request' w0 = refresh request w0.
Proof.
  intros H.
  destruct (refresh_header_cases env ACCESS_TOKEN_EXPIRE_MINUTES request w)
    as [[_ E]|(h & Hh & _ & [[_ E]|[[_ E]|(t & -> & Hne & E)]])];
    rewrite E in H; try discriminate.
  destruct (presented_returned _ _ _ _ _ _ H)
    as (ud & w1 & a & w2 & ta & _ & _ & _ & _ & _ & ->).
  cbn. conjuncts; [exact Hne|exact Hh|].
  intros request' w0 Hh'.
  now rewrite (refresh_bearer env ACCESS_TOKEN_EXPIRE_MINUTES request' t w0 Hh' Hne),
    (refresh_bearer env ACCESS_TOKEN_EXPIRE_MINUTES request t w0 Hh Hne).
Qed.

(** X8.  The failures of a route are fixed: login and token fail only with
    [UnauthorizedException] of detail ["Wrong username, email or password."],
    refresh only with [UnauthorizedException] of one of its four details, or
    any of them with the [OverflowError] of the expiry arithmetic. *)
Theorem failure_details_by_route
    (route : Route) (w w' : W) (e : exception) :
  serve env ACCESS_TOKEN_EXPIRE_MINUTES settings route w = (Raise e, w') ->
  match route with
  | PostLogin _ | PostToken _ =>
      e = UnauthorizedException "Wrong username, email or password."
  | PostRefresh _ =>
      In e (map UnauthorizedException
              ["Authorization header missing.";
               "Authorization header must start with 'Bearer '";
               "Refresh token missing.";
               "Invalid refresh token."])
  end
  \/ exc_class e = "OverflowError".
Proof.
  intros H. destruct route as [form_data|form_data|request];
    unfold serve, bind in H.
  - destruct (login_for_access_token env _ settings form_data w)
      as [[response|e0] w0] eqn:E; [discriminate|].
    injection H as <- <-.
    destruct (login_raised _ _ _ _ _ _ _ E) as [[-> _]|[Ho _]]; auto.
  - destruct (get_access_token env _ form_data w)
      as [[tk|e0] w0] eqn:E; [discriminate|].
    injection H as <- <-.
    destruct (token_raised _ _ _ _ _ _ E) as [[-> _]|[Ho _]]; auto.
  - destruct (refresh_access_token env _ request w)
      as [[tokens|e0] w0] eqn:E; [discriminate|].
    injection H as <- <-.
    rewrite refresh_unfold in E. cbn [map In].
    destruct (Request.headers_get request "Authorization") as [h|];
      [|injection E as <- _; auto].
    destruct (negb (PyStr.truthy h)); [injection E as <- _; auto|].
    destruct (negb (PyStr.startswith h "Bearer "));
      [injection E as <- _; auto|].
    destruct (negb (PyStr.truthy (PyStr.slice_from 7 h)));
      [injection E as <- _; auto 6|].
    destruct (presented_raised _ _ _ _ _ _ E) as [[-> _]|[Ho _]]; auto 7.
Qed.

(** The health route answers every request alike and leaves the world as it
    was. *)
Lemma health_check_constant (request request' : Request.t) (w : W) :
  health_check request w = health_check request' w /\
  snd (health_check request w) = w.
Proof. split; reflexivity. Qed.

End Composition.

(** ** The calendar fields and the format of [isoformat] *)

Module CalendarFacts.
Import Calendar.

Lemma holds_from_spec (p : Z -> bool) (k : nat) (lo x : Z) :
  holds_from p k lo = true -> lo <= x < lo + 2 ^ Z.of_nat k -> p x = true.
Proof.
  revert lo. induction k as [|k IH]; intros lo H Hx.
  - simpl in *. now replace x with lo by lia.
  - cbn [holds_from] in H. apply andb_true_iff in H as [H1 H2].
    rewrite Nat2Z.inj_succ, Z.pow_succ_r in Hx by lia.
    destruct (Z.lt_ge_cases x (lo + 2 ^ Z.of_nat k)).
    + apply (IH lo); [assumption|lia].
    + apply (IH (lo + 2 ^ Z.of_nat k)); [assumption|lia].
Qed.

Lemma month_day_valid (leapyear : bool) (n : Z) :
  0 <= n <= 364 -> month_day_ok leapyear n = true.
Proof.
  intros Hn.
  assert (H : holds_from
                (fun n => negb (n <=? 364) || month_day_ok leapyear n) 9 0
              = true) by (destruct leapyear; vm_compute; reflexivity).
  apply (holds_from_spec _ _ _ n) in H; [|simpl; lia].
  apply orb_true_iff in H as [H|H]; [|exact H].
  apply negb_true_iff, Z.leb_gt in H. lia.
Qed.

Lemma leap_flag (a b c d : Z) :
  0 <= a -> 0 <= b <= 3 -> 0 <= c <= 24 -> 0 <= d <= 3 ->
  (d =? 3) && (negb (c =? 24) || (b =? 3))
  = Iso8601.is_leap (a * 400 + 1 + b * 100 + c * 4 + d).
Proof.
  intros Ha Hb Hc Hd. unfold Iso8601.is_leap.
  set (y := a * 400 + 1 + b * 100 + c * 4 + d).
  assert (H4 : y mod 4 = (d + 1) mod 4).
  { unfold y. replace (a * 400 + 1 + b * 100 + c * 4 + d)
      with ((d + 1) + (a * 100 + b * 25 + c) * 4) by lia.
    apply Z_mod_plus_full. }
  assert (H100 : y mod 100 = (c * 4 + d + 1) mod 100).
  { unfold y. replace (a * 400 + 1 + b * 100 + c * 4 + d)
      with ((c * 4 + d + 1) + (a * 4 + b) * 100) by lia.
    apply Z_mod_plus_full. }
  assert (H400 : y mod 400 = (b * 100 + c * 4 + d + 1) mod 400).
  { unfold y. replace (a * 400 + 1 + b * 100 + c * 4 + d)
      with ((b * 100 + c * 4 + d + 1) + a * 400) by lia.
    apply Z_mod_plus_full. }
  rewrite H4, H100, H400.
  destruct (Z.eqb_spec d 3) as [->|Hd3].
  - destruct (Z.eqb_spec c 24) as [->|Hc24].
    + destruct (Z.eqb_spec b 3) as [->|Hb3]; [reflexivity|].
      assert (b = 0 \/ b = 1 \/ b = 2) as [->|[->| ->]] by lia; reflexivity.
    + cbn [negb orb andb].
      replace ((3 + 1) mod 4) with 0 by reflexivity. cbn [Z.eqb andb].
      assert (H : (c * 4 + 3 + 1) mod 100 <> 0).
      { rewrite Z.mod_small by lia. lia. }
      apply Z.eqb_neq in H. now rewrite H.
  - cbn [andb].
    assert (H : (d + 1) mod 4 <> 0) by (rewrite Z.mod_small by lia; lia).
    apply Z.eqb_neq in H. now rewrite H.
Qed.

Lemma ord2ymd_fields (ordinal : Z) :
  1 <= ordinal <= MAXORDINAL ->
  let '(year, month, day) := ord2ymd ordinal in
  1 <= year <= 9999 /\ 1 <= month <= 12 /\
  1 <= day <= Iso8601.days_in_month year month.
Proof.
  unfold MAXORDINAL. intros Ho. unfold ord2ymd, DI400Y, DI100Y, DI4Y.
  remember ((ordinal - 1) / 146097) as a eqn:Ea.
  remember ((ordinal - 1) mod 146097) as r eqn:Er.
  remember (r / 36524) as b eqn:Eb.
  remember (r mod 36524) as r1 eqn:Er1.
  remember (r1 / 1461) as c eqn:Ec.
  remember (r1 mod 1461) as r2 eqn:Er2.
  remember (r2 / 365) as d eqn:Ed.
  remember (r2 mod 365) as n eqn:En.
  assert (Hr : 0 <= r < 146097) by (subst r; apply Z.mod_pos_bound; lia).
  assert (Hr1 : 0 <= r1 < 36524) by (subst r1; apply Z.mod_pos_bound; lia).
  assert (Hr2 : 0 <= r2 < 1461) by (subst r2; apply Z.mod_pos_bound; lia).
  assert (Hn : 0 <= n < 365) by (subst n; apply Z.mod_pos_bound; lia).
  assert (Dr : ordinal - 1 = 146097 * a + r)
    by (subst a r; apply Z.div_mod; lia).
  assert (Dr1 : r = 36524 * b + r1) by (subst b r1; apply Z.div_mod; lia).
  assert (Dr2 : r1 = 1461 * c + r2) by (subst c r2; apply Z.div_mod; lia).
  assert (Dn : r2 = 365 * d + n) by (subst d n; apply Z.div_mod; lia).
  clear Ea Er Eb Er1 Ec Er2 Ed En.
  assert (Ha : 0 <= a) by lia.
  assert (Hb : 0 <= b <= 4) by lia.
  assert (Hc : 0 <= c <= 24) by lia.
  assert (Hd : 0 <= d <= 4) by lia.
  destruct (Z.eqb_spec d 4) as [Hd4|Hd4]; cbn [orb].
  { unfold Iso8601.days_in_month. cbn. lia. }
  destruct (Z.eqb_spec b 4) as [Hb4|Hb4].
  { unfold Iso8601.days_in_month. cbn. lia. }
  rewrite (leap_flag a b c d) by lia.
  set (year := a * 400 + 1 + b * 100 + c * 4 + d).
  assert (Hy : 1 <= year <= 9999) by (unfold year; lia).
  pose proof (month_day_valid (Iso8601.is_leap year) n ltac:(lia)) as Hmd.
  unfold month_day_ok, month_day in Hmd.
  set (leap := Iso8601.is_leap year) in *.
  set (m0 := Z.shiftr (n + 50) 5) in *.
  destruct (n <? DAYS_BEFORE_MONTH m0 + b2z ((2 <? m0) && leap));
    unfold Iso8601.between in Hmd;
    repeat (apply andb_true_iff in Hmd as [Hmd ?]);
    repeat match goal with
           | H : (_ <=? _) = true |- _ => apply Z.leb_le in H
           end;
    (split; [exact Hy|]); (split; [lia|]);
    unfold Iso8601.days_in_month; fold leap.
  - destruct ((m0 - 1 =? 2) && leap) eqn:E; cbn [b2z] in *; [|lia].
    apply andb_true_iff in E as [E _]. apply Z.eqb_eq in E.
    rewrite E in *. cbn [DAYS_IN_MONTH] in *. lia.
  - destruct ((m0 =? 2) && leap) eqn:E; cbn [b2z] in *; [|lia].
    apply andb_true_iff in E as [E _]. apply Z.eqb_eq in E.
    rewrite E in *. cbn [DAYS_IN_MONTH] in *. lia.
Qed.

End CalendarFacts.

Module IsoformatFacts.
Import Iso8601 Calendar.

Lemma digit_is_digit (d : Z) :
  is_digit (digit d) = true /\ digit_value (digit d) = d mod 10.
Proof.
  unfold digit. pose proof (Z.mod_pos_bound d 10 eq_refl) as H.
  assert (E : d mod 10 = 0 \/ d mod 10 = 1 \/ d mod 10 = 2 \/ d mod 10 = 3
              \/ d mod 10 = 4 \/ d mod 10 = 5 \/ d mod 10 = 6
              \/ d mod 10 = 7 \/ d mod 10 = 8 \/ d mod 10 = 9) by lia.
  repeat destruct E as [E|E]; rewrite E; split; reflexivity.
Qed.

Lemma zero_padded_snoc (w : nat) (n : Z) (rest : string) :
  zero_padded (S w) n ++ rest
  = zero_padded w (n / 10) ++ String (digit n) rest.
Proof. cbn [zero_padded]. now rewrite append_assoc. Qed.

(** Reading back [w] digits written by [zero_padded]. *)
Lemma digits_zero_padded (w k : nat) (n acc : Z) (rest : string) :
  0 <= n < 10 ^ Z.of_nat w ->
  digits (w + k) acc (zero_padded w n ++ rest)
  = digits k (acc * 10 ^ Z.of_nat w + n) rest.
Proof.
  revert k n rest. induction w as [|w IH]; intros k n rest Hn.
  - cbn in *. f_equal. lia.
  - rewrite zero_padded_snoc, Nat.add_succ_comm.
    rewrite Nat2Z.inj_succ, Z.pow_succ_r in * by lia.
    rewrite IH by (split; [apply Z.div_pos; lia
                          |apply Z.div_lt_upper_bound; lia]).
    cbn [digits]. destruct (digit_is_digit n) as [-> ->].
    f_equal. pose proof (Z.div_mod n 10 ltac:(lia)). lia.
Qed.

Lemma digits_field (w : nat) (n : Z) (rest : string) :
  0 <= n < 10 ^ Z.of_nat w ->
  digits w 0 (zero_padded w n ++ rest) = Some (n, rest).
Proof.
  intros Hn. pose proof (digits_zero_padded w 0 n 0 rest Hn) as H.
  rewrite Nat.add_0_r in H. rewrite H. cbn. f_equal.
Qed.

Lemma skip_digits_zero_padded (w : nat) (n : Z) (rest : string) :
  skip_digits (zero_padded w n ++ rest) = skip_digits rest.
Proof.
  revert n rest. induction w as [|w IH]; intros n rest; [reflexivity|].
  rewrite zero_padded_snoc, IH. cbn [skip_digits].
  now destruct (digit_is_digit n) as [-> _].
Qed.

Lemma zero_padded_head (w : nat) (n : Z) :
  zero_padded (S w) n
  = String (digit (n / 10 ^ Z.of_nat w)) (zero_padded w n).
Proof.
  revert n. induction w as [|w IH]; intros n.
  - cbn. now rewrite Z.div_1_r.
  - change (zero_padded (S (S w)) n)
      with (zero_padded (S w) (n / 10) ++ String (digit n) "").
    rewrite IH. cbn [append zero_padded]. f_equal. f_equal.
    rewrite Nat2Z.inj_succ, Z.pow_succ_r by lia.
    rewrite Z.div_div by lia. reflexivity.
Qed.

Lemma fraction_zero_padded (w : nat) (n : Z) (rest : string) :
  fraction (("." ++ zero_padded (S w) n) ++ rest) = Some (skip_digits rest).
Proof.
  rewrite zero_padded_head. cbn [append fraction is_decimal_sign].
  cbn [Ascii.eqb Bool.eqb orb].
  destruct (digit_is_digit (n / 10 ^ Z.of_nat w)) as [-> _].
  now rewrite skip_digits_zero_padded.
Qed.

Lemma lit_here (c : ascii) (rest : string) :
  lit c (String c "" ++ rest) = Some rest.
Proof. cbn. now rewrite Ascii.eqb_refl. Qed.

Lemma between_true (lo hi v : Z) : lo <= v <= hi -> between lo hi v = true.
Proof.
  intros [H1 H2]. unfold between.
  apply andb_true_iff. split; now apply Z.leb_le.
Qed.

(** What [isoformat] writes for a representable instant is a timestamp with
    the zone designator ["+00:00"]. *)
Lemma isoformat_parses (t : datetime) :
  representable t -> extended (isoformat t) = Some "+00:00".
Proof.
  unfold representable, MAXORDINAL, US_PER_DAY, US_PER_SECOND. intros Ht.
  unfold isoformat, US_PER_DAY, US_PER_SECOND.
  replace (86400 * 1000000) with 86400000000 in * by reflexivity.
  assert (Ho : 1 <= t / 86400000000 + 1 <= Calendar.MAXORDINAL).
  { unfold Calendar.MAXORDINAL. split.
    - pose proof (Z.div_pos t 86400000000). lia.
    - assert (t / 86400000000 < 3652059)
        by (apply Z.div_lt_upper_bound; lia). lia. }
  pose proof (CalendarFacts.ord2ymd_fields _ Ho) as Hf.
  destruct (ord2ymd (t / 86400000000 + 1)) as [[year month] day].
  destruct Hf as (Hy & Hm & Hd).
  set (in_day := t mod 86400000000).
  assert (Hin : 0 <= in_day < 86400000000)
    by (apply Z.mod_pos_bound; lia).
  set (seconds := in_day / 1000000).
  assert (Hs : 0 <= seconds < 86400).
  { unfold seconds. split; [apply Z.div_pos; lia
                           |apply Z.div_lt_upper_bound; lia]. }
  set (us := in_day mod 1000000).
  assert (Hus : 0 <= us < 1000000) by (apply Z.mod_pos_bound; lia).
  assert (Hh : 0 <= seconds / 3600 <= 23).
  { split; [apply Z.div_pos; lia|].
    assert (seconds / 3600 < 24) by (apply Z.div_lt_upper_bound; lia). lia. }
  assert (Hmin : 0 <= (seconds / 60) mod 60 <= 59)
    by (pose proof (Z.mod_pos_bound (seconds / 60) 60); lia).
  assert (Hsec : 0 <= seconds mod 60 <= 59)
    by (pose proof (Z.mod_pos_bound seconds 60); lia).
  assert (Hdim : Iso8601.days_in_month year month <= 31).
  { unfold Iso8601.days_in_month.
    destruct ((month =? 2) && is_leap year); [lia|].
    assert (month = 1 \/ month = 2 \/ month = 3 \/ month = 4 \/ month = 5
            \/ month = 6 \/ month = 7 \/ month = 8 \/ month = 9
            \/ month = 10 \/ month = 11 \/ month = 12) as E by lia.
    repeat destruct E as [E|E]; rewrite E; cbn; lia. }
  unfold extended.
  rewrite digits_field by (cbn; lia). cbn [obind]. rewrite lit_here.
  cbn [obind]. rewrite digits_field by (cbn; lia). cbn [obind].
  rewrite lit_here. cbn [obind]. rewrite digits_field by (cbn; lia).
  cbn [obind]. rewrite lit_here. cbn [obind].
  rewrite digits_field by (cbn; lia). cbn [obind]. rewrite lit_here.
  cbn [obind]. rewrite digits_field by (cbn; lia). cbn [obind].
  rewrite lit_here. cbn [obind]. rewrite digits_field by (cbn; lia).
  cbn [obind].
  unfold fields_ok. rewrite !between_true by lia. cbn [andb].
  destruct (us =? 0); [reflexivity|].
  now rewrite fraction_zero_padded.
Qed.

Lemma isoformat_is_iso8601 (t : datetime) :
  representable t -> is_iso8601_utc (isoformat t) = true.
Proof.
  intros Ht. unfold is_iso8601_utc. now rewrite (isoformat_parses t Ht).
Qed.

End IsoformatFacts.

Section ExpiryWithoutZ.

Context {W : Type}.
Variable env : Collaborators W.
Variable ACCESS_TOKEN_EXPIRE_MINUTES : Z.
Variable settings : Settings.

(** X9.  Every non-empty [expires_at] a route emits is [isoformat e ++ "Z"]
    for the expiry instant [e] the handler computed; [e] is an instant a
    [datetime] can hold, and the part before the appended ["Z"] is by itself
    an ISO-8601 timestamp with a UTC marker. *)
Theorem emitted_expiry_valid_before_z
    (route : Route) (w w' : W) (payload : Payload) (tok : Token.t) :
  serve env ACCESS_TOKEN_EXPIRE_MINUTES settings route w = (Return payload, w') ->
  In tok (tokens_of payload) ->
  Token.expires_at tok <> "" ->
  exists e,
    Token.expires_at tok = isoformat e ++ "Z" /\
    Calendar.representable e /\
    Iso8601.is_iso8601_utc (isoformat e) = true.
Proof.
  intros H Hin Hne.
  assert (Hiso : exists e, Token.expires_at tok = isoformat e ++ "Z"
                           /\ in_range e = true).
  { destruct route as [form_data|form_data|request]; unfold serve, bind in H.
    - destruct (login_for_access_token env _ settings form_data w)
        as [[response|e] w0] eqn:E; [|discriminate].
      injection H as <- <-.
      destruct (login_returned _ _ _ _ _ _ _ E)
        as (user & w1 & t1 & w2 & a & w3 & r & w4 & t2
            & _ & _ & _ & Hr1 & _ & _ & _ & _ & Hr2 & ->).
      destruct Hin as [<-|[<-|[]]]; eexists; split; reflexivity || eassumption.
    - destruct (get_access_token env _ form_data w)
        as [[tk|e] w0] eqn:E; [|discriminate].
      injection H as <- <-.
      destruct (token_returned _ _ _ _ _ _ E)
        as (user & w1 & t1 & w2 & a & _ & _ & _ & Hr1 & _ & ->).
      destruct Hin as [<-|[]]; eexists; split; reflexivity || eassumption.
    - destruct (refresh_access_token env _ request w)
        as [[tokens|e] w0] eqn:E; [|discriminate].
      injection H as <- <-.
      destruct (refresh_returned _ _ _ _ _ _ E)
        as (t & ud & w1 & a & w2 & ta & _ & _ & _ & _ & _ & _ & Hr1 & ->).
      destruct Hin as [<-|[<-|[]]];
        [eexists; split; reflexivity || eassumption|].
      now elim Hne. }
  destruct Hiso as (e & He & Hr). apply in_range_representable in Hr.
  exists e. conjuncts; [exact He|exact Hr|].
  now apply IsoformatFacts.isoformat_is_iso8601.
Qed.

End ExpiryWithoutZ.

Module ReadbackFacts.
Import Iso8601 Calendar Readback.

Lemma month_day_inverse (leapyear : bool) (n : Z) :
  0 <= n <= 364 -> month_day_inverts leapyear n = true.
Proof.
  intros Hn.
  assert (H : holds_from
                (fun n => negb (n <=? 364) || month_day_inverts leapyear n) 9 0
              = true) by (destruct leapyear; vm_compute; reflexivity).
  apply (CalendarFacts.holds_from_spec _ _ _ n) in H; [|simpl; lia].
  apply orb_true_iff in H as [H|H]; [|exact H].
  apply negb_true_iff, Z.leb_gt in H. lia.
Qed.

Lemma days_before_year_cycle (a b c d : Z) :
  0 <= a -> 0 <= b <= 3 -> 0 <= c <= 24 -> 0 <= d <= 3 ->
  days_before_year (a * 400 + 1 + b * 100 + c * 4 + d)
  = 146097 * a + 36524 * b + 1461 * c + 365 * d.
Proof.
  intros Ha Hb Hc Hd. unfold days_before_year.
  replace (a * 400 + 1 + b * 100 + c * 4 + d - 1)
    with (a * 400 + b * 100 + c * 4 + d) by lia.
  set (y := a * 400 + b * 100 + c * 4 + d).
  assert (H4 : y / 4 = a * 100 + b * 25 + c).
  { symmetry. apply (Z.div_unique y 4 _ d); unfold y; lia. }
  assert (H100 : y / 100 = a * 4 + b).
  { symmetry. apply (Z.div_unique y 100 _ (c * 4 + d)); unfold y; lia. }
  assert (H400 : y / 400 = a).
  { symmetry. apply (Z.div_unique y 400 _ (b * 100 + c * 4 + d));
      unfold y; lia. }
  rewrite H4, H100, H400. unfold y. lia.
Qed.

Lemma ymd2ord_ord2ymd (ordinal : Z) :
  1 <= ordinal ->
  let '(year, month, day) := ord2ymd ordinal in
  ymd2ord year month day = ordinal.
Proof.
  intros Ho. unfold ord2ymd, DI400Y, DI100Y, DI4Y.
  remember ((ordinal - 1) / 146097) as a eqn:Ea.
  remember ((ordinal - 1) mod 146097) as r eqn:Er.
  remember (r / 36524) as b eqn:Eb.
  remember (r mod 36524) as r1 eqn:Er1.
  remember (r1 / 1461) as c eqn:Ec.
  remember (r1 mod 1461) as r2 eqn:Er2.
  remember (r2 / 365) as d eqn:Ed.
  remember (r2 mod 365) as n eqn:En.
  assert (Hr : 0 <= r < 146097) by (subst r; apply Z.mod_pos_bound; lia).
  assert (Hr1 : 0 <= r1 < 36524) by (subst r1; apply Z.mod_pos_bound; lia).
  assert (Hr2 : 0 <= r2 < 1461) by (subst r2; apply Z.mod_pos_bound; lia).
  assert (Hn : 0 <= n < 365) by (subst n; apply Z.mod_pos_bound; lia).
  assert (Dr : ordinal - 1 = 146097 * a + r)
    by (subst a r; apply Z.div_mod; lia).
  assert (Dr1 : r = 36524 * b + r1) by (subst b r1; apply Z.div_mod; lia).
  assert (Dr2 : r1 = 1461 * c + r2) by (subst c r2; apply Z.div_mod; lia).
  assert (Dn : r2 = 365 * d + n) by (subst d n; apply Z.div_mod; lia).
  clear Ea Er Eb Er1 Ec Er2 Ed En.
  assert (Ha : 0 <= a) by lia.
  assert (Hb : 0 <= b <= 4) by lia.
  assert (Hc : 0 <= c <= 24) by lia.
  assert (Hd : 0 <= d <= 4) by lia.
  unfold ymd2ord, days_before_month.
  destruct (Z.eqb_spec d 4) as [Hd4|Hd4]; cbn [orb].
  { subst d. assert (n = 0) by lia. subst n. assert (c <= 23) by lia.
    replace (a * 400 + 1 + b * 100 + c * 4 + 4 - 1)
      with (a * 400 + 1 + b * 100 + c * 4 + 3) by lia.
    rewrite <- (CalendarFacts.leap_flag a b c 3) by lia.
    rewrite days_before_year_cycle by lia.
    replace (c =? 24) with false by (symmetry; apply Z.eqb_neq; lia).
    change (DAYS_BEFORE_MONTH 12) with 334. change (2 <? 12) with true.
    change (3 =? 3) with true. cbn [negb orb andb b2z]. lia. }
  destruct (Z.eqb_spec b 4) as [Hb4|Hb4].
  { subst b. assert (r1 = 0) by lia. assert (c = 0) by lia.
    assert (r2 = 0) by lia. assert (d = 0) by lia. assert (n = 0) by lia.
    subst. replace (a * 400 + 1 + 4 * 100 + 0 * 4 + 0 - 1)
      with (a * 400 + 1 + 3 * 100 + 24 * 4 + 3) by lia.
    rewrite <- (CalendarFacts.leap_flag a 3 24 3) by lia.
    rewrite days_before_year_cycle by lia.
    change (DAYS_BEFORE_MONTH 12) with 334. change (2 <? 12) with true.
    change (3 =? 3) with true. change (24 =? 24) with true.
    cbn [negb orb andb b2z]. lia. }
  rewrite (CalendarFacts.leap_flag a b c d) by lia.
  set (year := a * 400 + 1 + b * 100 + c * 4 + d).
  pose proof (month_day_inverse (Iso8601.is_leap year) n ltac:(lia)) as Hmd.
  unfold month_day_inverts, month_day in Hmd.
  set (leap := Iso8601.is_leap year) in *.
  set (m0 := Z.shiftr (n + 50) 5) in *.
  assert (Hy : days_before_year year
               = 146097 * a + 36524 * b + 1461 * c + 365 * d)
    by (apply days_before_year_cycle; lia).
  destruct (n <? DAYS_BEFORE_MONTH m0 + b2z ((2 <? m0) && leap));
    apply Z.eqb_eq in Hmd; fold leap; lia.
Qed.

(** Reading back what [isoformat] wrote. *)
Lemma read_isoformat (t : datetime) :
  representable t -> read_instant (isoformat t) = Some t.
Proof.
  unfold representable, MAXORDINAL, US_PER_DAY, US_PER_SECOND. intros Ht.
  unfold isoformat, US_PER_DAY, US_PER_SECOND.
  replace (86400 * 1000000) with 86400000000 in * by reflexivity.
  assert (Ho : 1 <= t / 86400000000 + 1 <= Calendar.MAXORDINAL).
  { unfold Calendar.MAXORDINAL. split.
    - pose proof (Z.div_pos t 86400000000). lia.
    - assert (t / 86400000000 < 3652059)
        by (apply Z.div_lt_upper_bound; lia). lia. }
  pose proof (CalendarFacts.ord2ymd_fields _ Ho) as Hf.
  pose proof (ymd2ord_ord2ymd _ (proj1 Ho)) as Hinv.
  destruct (ord2ymd (t / 86400000000 + 1)) as [[year month] day].
  destruct Hf as (Hy & Hm & Hd).
  pose proof (Z.div_mod t 86400000000 ltac:(lia)) as Dt.
  set (in_day := t mod 86400000000) in *.
  assert (Hin : 0 <= in_day < 86400000000)
    by (apply Z.mod_pos_bound; lia).
  pose proof (Z.div_mod in_day 1000000 ltac:(lia)) as Din.
  set (seconds := in_day / 1000000) in *.
  assert (Hs : 0 <= seconds < 86400).
  { unfold seconds. split; [apply Z.div_pos; lia
                           |apply Z.div_lt_upper_bound; lia]. }
  set (us := in_day mod 1000000) in *.
  assert (Hus : 0 <= us < 1000000) by (apply Z.mod_pos_bound; lia).
  assert (Hh : 0 <= seconds / 3600 <= 23).
  { split; [apply Z.div_pos; lia|].
    assert (seconds / 3600 < 24) by (apply Z.div_lt_upper_bound; lia). lia. }
  assert (Hmin : 0 <= (seconds / 60) mod 60 <= 59)
    by (pose proof (Z.mod_pos_bound (seconds / 60) 60); lia).
  assert (Hsec : 0 <= seconds mod 60 <= 59)
    by (pose proof (Z.mod_pos_bound seconds 60); lia).
  assert (Hdim : Iso8601.days_in_month year month <= 31).
  { unfold Iso8601.days_in_month.
    destruct ((month =? 2) && is_leap year); [lia|].
    assert (month = 1 \/ month = 2 \/ month = 3 \/ month = 4 \/ month = 5
            \/ month = 6 \/ month = 7 \/ month = 8 \/ month = 9
            \/ month = 10 \/ month = 11 \/ month = 12) as E by lia.
    repeat destruct E as [E|E]; rewrite E; cbn; lia. }
  assert (Hclock : ((seconds / 3600 * 60 + (seconds / 60) mod 60) * 60
                    + seconds mod 60) = seconds).
  { pose proof (Z.div_mod seconds 60 ltac:(lia)).
    pose proof (Z.div_mod (seconds / 60) 60 ltac:(lia)).
    replace (seconds / 3600) with (seconds / 60 / 60)
      by (rewrite Z.div_div by lia; reflexivity).
    lia. }
  unfold read_instant.
  rewrite IsoformatFacts.digits_field by (cbn; lia). cbn [obind].
  rewrite IsoformatFacts.lit_here. cbn [obind].
  rewrite IsoformatFacts.digits_field by (cbn; lia). cbn [obind].
  rewrite IsoformatFacts.lit_here. cbn [obind].
  rewrite IsoformatFacts.digits_field by (cbn; lia). cbn [obind].
  rewrite IsoformatFacts.lit_here. cbn [obind].
  rewrite IsoformatFacts.digits_field by (cbn; lia). cbn [obind].
  rewrite IsoformatFacts.lit_here. cbn [obind].
  rewrite IsoformatFacts.digits_field by (cbn; lia). cbn [obind].
  rewrite IsoformatFacts.lit_here. cbn [obind].
  rewrite IsoformatFacts.digits_field by (cbn; lia). cbn [obind].
  assert (Hinst : instant year month day (seconds / 3600)
                    ((seconds / 60) mod 60) (seconds mod 60) us = t).
  { unfold instant, US_PER_DAY, US_PER_SECOND. rewrite Hinv, Hclock. lia. }
  destruct (Z.eqb_spec us 0) as [E0|E0].
  - cbn [append microseconds obind]. rewrite String.eqb_refl.
    f_equal. now rewrite <- E0.
  - change (("." ++ zero_padded 6 us) ++ "+00:00")
      with (String "." (zero_padded 6 us ++ "+00:00")).
    cbn [microseconds].
    rewrite IsoformatFacts.digits_field by (cbn; lia). cbn [obind].
    rewrite String.eqb_refl. now f_equal.
Qed.

End ReadbackFacts.

(** X10.  The reported expiry determines the instant: two representable
    instants that the handlers would report alike are the same instant. *)
Theorem reported_expiry_determines_instant (t1 t2 : datetime) :
  Calendar.representable t1 ->
  Calendar.representable t2 ->
  isoformat t1 ++ "Z" = isoformat t2 ++ "Z" ->
  t1 = t2.
Proof.
  intros H1 H2 E.
  apply append_snoc_inj in E as [E _].
  pose proof (ReadbackFacts.read_isoformat t1 H1) as R1.
  pose proof (ReadbackFacts.read_isoformat t2 H2) as R2.
  rewrite E, R2 in R1. now injection R1.
Qed.

(** ** Sample runs of the further properties *)

Lemma refresh_header_rejection_is_pure_run :
  let request := Request.mk [("authorization", "bearer abc")] in
  (forall tok,
      Request.headers_get request "Authorization" = Some ("Bearer " ++ tok) ->
      tok = "") /\
  refresh_access_token Fixtures.stopped 15 request Sample.t0
    = refresh_access_token Sample.env 30 request Sample.t0.
Proof.
  intros request.
  assert (H : forall tok,
             Request.headers_get request "Authorization"
               = Some ("Bearer " ++ tok) -> tok = "")
    by (intros tok E; vm_compute in E; discriminate).
  split; [exact H|].
  exact (proj2 (refresh_header_rejection_is_pure Sample.env Fixtures.stopped
                  30 15 request Sample.t0 H)).
Defined.

Lemma refresh_never_rotates_run :
  let request := Sample.bearer "alice@2024-01-08T00:00:00+00:00" in
  verify_token Fixtures.rotating = verify_token Sample.env /\
  create_access_token Fixtures.rotating = create_access_token Sample.env /\
  utcnow Fixtures.rotating = utcnow Sample.env /\
  refresh_access_token Fixtures.rotating 30 request Sample.t0
    = refresh_access_token Sample.env 30 request Sample.t0.
Proof.
  intros request. conjuncts; [reflexivity|reflexivity|reflexivity|].
  exact (refresh_never_rotates Sample.env Fixtures.rotating 30 request
           Sample.t0 eq_refl eq_refl eq_refl).
Defined.

Lemma failures_reach_no_issuer_run :
  let route := PostLogin (OAuth2PasswordRequestForm.mk "alice" "guess") in
  let failure :=
    (Raise (UnauthorizedException "Wrong username, email or password."),
     Sample.t0) in
  authenticate_user Fixtures.stopped = authenticate_user Sample.env /\
  logger_error Fixtures.stopped = logger_error Sample.env /\
  verify_token Fixtures.stopped = verify_token Sample.env /\
  serve Sample.env 30 Sample.settings route Sample.t0 = failure /\
  exc_class (UnauthorizedException "Wrong username, email or password.")
    = "UnauthorizedException" /\
  serve Fixtures.stopped 15 (mk_settings 1) route Sample.t0 = failure.
Proof.
  intros route failure.
  assert (H : serve Sample.env 30 Sample.settings route Sample.t0 = failure)
    by reflexivity.
  conjuncts; [reflexivity|reflexivity|reflexivity|exact H|reflexivity|].
  exact (failures_reach_no_issuer Sample.env Fixtures.stopped 30 15
           Sample.settings (mk_settings 1) route Sample.t0 Sample.t0 _
           eq_refl eq_refl eq_refl H eq_refl).
Defined.

Lemma login_logs_authentication_result_run :
  let form_data := OAuth2PasswordRequestForm.mk "alice" "guess" in
  let w := (Sample.t0, @nil (option User.t)) in
  LoggedSample.log_of
    (snd (login_for_access_token LoggedSample.env 30 Sample.settings
            form_data w)) = [None] /\
  LoggedSample.log_of
    (snd (login_for_access_token LoggedSample.env 30 Sample.settings
            (OAuth2PasswordRequestForm.mk "alice" "secret") w))
    = [Some Sample.alice] /\
  LoggedSample.log_of
    (snd (get_access_token LoggedSample.env 30 form_data w)) = [].
Proof.
  intros form_data w.
  assert (Hlog : forall user w,
             LoggedSample.log_of (logger_error LoggedSample.env user w)
             = (LoggedSample.log_of w ++ [user])%list) by reflexivity.
  assert (Hauth : forall u p w,
             LoggedSample.log_of
               (snd (authenticate_user LoggedSample.env u p w))
             = LoggedSample.log_of w).
  { intros u p [c l]. cbn [authenticate_user LoggedSample.env].
    unfold LoggedSample.on_clock.
    now destruct (authenticate_user Sample.env u p (fst (c, l))). }
  assert (Hnow : forall w,
             LoggedSample.log_of (snd (utcnow LoggedSample.env w))
             = LoggedSample.log_of w) by (intros [c l]; reflexivity).
  assert (Hacc : forall d ttl w,
             LoggedSample.log_of
               (snd (create_access_token LoggedSample.env d ttl w))
             = LoggedSample.log_of w) by (intros d ttl [c l]; reflexivity).
  assert (Href : forall d ttl w,
             LoggedSample.log_of
               (snd (create_refresh_token LoggedSample.env d ttl w))
             = LoggedSample.log_of w) by (intros d ttl [c l]; reflexivity).
  assert (Hver : forall tok w,
             LoggedSample.log_of (snd (verify_token LoggedSample.env tok w))
             = LoggedSample.log_of w).
  { intros tok [c l]. cbn [verify_token LoggedSample.env].
    unfold LoggedSample.on_clock.
    now destruct (verify_token Sample.env tok (fst (c, l))). }
  pose proof (login_logs_authentication_result LoggedSample.env 30
                Sample.settings LoggedSample.log_of form_data
                (Request.mk []) w Hlog Hauth Hnow Hacc Href Hver)
    as (H1 & H2 & _).
  pose proof (login_logs_authentication_result LoggedSample.env 30
                Sample.settings LoggedSample.log_of
                (OAuth2PasswordRequestForm.mk "alice" "secret")
                (Request.mk []) w Hlog Hauth Hnow Hacc Href Hver)
    as (H3 & _ & _).
  conjuncts; [rewrite H1|rewrite H3|rewrite H2]; reflexivity.
Defined.

Lemma response_depends_on_authentication_only_run :
  let by_name := OAuth2PasswordRequestForm.mk "alice" "secret" in
  let by_email := OAuth2PasswordRequestForm.mk "alice@example.com" "secret" in
  authenticate_user Sample.env "alice" "secret" Sample.t0
    = authenticate_user Sample.env "alice@example.com" "secret" Sample.t0 /\
  login_for_access_token Sample.env 30 Sample.settings by_name Sample.t0
    = login_for_access_token Sample.env 30 Sample.settings by_email Sample.t0.
Proof.
  intros by_name by_email.
  assert (H : authenticate_user Sample.env "alice" "secret" Sample.t0
              = authenticate_user Sample.env "alice@example.com" "secret"
                  Sample.t0) by reflexivity.
  split; [exact H|].
  exact (proj1 (response_depends_on_authentication_only Sample.env 30
                  Sample.settings by_name by_email Sample.t0 H)).
Defined.

(** The sample form under the sample settings, where both routes return,
    and under a refresh lifetime of a thousand million days, where the token
    route returns and login raises. *)
Lemma token_route_agrees_with_login_run :
  let form_data := OAuth2PasswordRequestForm.mk "alice" "secret" in
  let issued :=
    Token.mk "alice@2024-01-01T00:30:00.000001+00:00" "bearer"
      "2024-01-01T00:30:00+00:00Z" in
  (forall user w, logger_error Sample.env user w = w) /\
  fst (get_access_token Sample.env 30 form_data Sample.t0) = Return issued /\
  (exists response,
      fst (login_for_access_token Sample.env 30 Sample.settings form_data
             Sample.t0) = Return response /\
      BackendTokens.access_token (LoginResponse.backend_tokens response)
        = issued) /\
  (exists e,
      fst (login_for_access_token Sample.env 30 (mk_settings 1000000000)
             form_data Sample.t0) = Raise e /\
      exc_class e = "OverflowError").
Proof.
  intros form_data issued.
  assert (H : forall user w, logger_error Sample.env user w = w)
    by reflexivity.
  assert (Ht : fst (get_access_token Sample.env 30 form_data Sample.t0)
               = Return issued) by (vm_compute; reflexivity).
  conjuncts; [exact H|exact Ht| |].
  - pose proof (token_route_agrees_with_login Sample.env 30 Sample.settings
                  form_data Sample.t0 H) as T.
    rewrite Ht in T.
    destruct (fst (login_for_access_token Sample.env 30 Sample.settings
                     form_data Sample.t0)) as [response|e] eqn:E.
    + exists response. now split.
    + vm_compute in E. discriminate.
  - pose proof (token_route_agrees_with_login Sample.env 30
                  (mk_settings 1000000000) form_data Sample.t0 H) as T.
    rewrite Ht in T.
    destruct (fst (login_for_access_token Sample.env 30
                     (mk_settings 1000000000) form_data Sample.t0))
      as [response|e] eqn:E.
    + vm_compute in E. discriminate.
    + exists e. split; [reflexivity|exact (proj1 T)].
Defined.

Lemma echoed_token_can_be_presented_again_run :
  exists tokens w',
    refresh_access_token Sample.env 30
      (Sample.bearer "alice@2024-01-08T00:00:00+00:00") Sample.t0
      = (Return tokens, w') /\
    Request.headers_get (Sample.bearer "alice@2024-01-08T00:00:00+00:00")
      "Authorization"
      = Some ("Bearer "
              ++ Token.access_token (BackendTokens.refresh_token tokens)).
Proof.
  assert (E : exists tokens w',
             refresh_access_token Sample.env 30
               (Sample.bearer "alice@2024-01-08T00:00:00+00:00") Sample.t0
             = (Return tokens, w'))
    by (eexists _, _; vm_compute; reflexivity).
  destruct E as (tokens & w' & E). exists tokens, w'.
  split; [exact E|].
  exact (proj1 (proj2 (echoed_token_can_be_presented_again Sample.env 30
                         _ _ _ _ E))).
Defined.

Lemma failure_details_by_route_run :
  let route := PostRefresh (Request.mk [("authorization", "Bearer ")]) in
  let e := UnauthorizedException "Refresh token missing." in
  serve Sample.env 30 Sample.settings route Sample.t0 = (Raise e, Sample.t0) /\
  (In e (map UnauthorizedException
           ["Authorization header missing.";
            "Authorization header must start with 'Bearer '";
            "Refresh token missing.";
            "Invalid refresh token."])
   \/ exc_class e = "OverflowError").
Proof.
  intros route e.
  assert (H : serve Sample.env 30 Sample.settings route Sample.t0
              = (Raise e, Sample.t0)) by reflexivity.
  split; [exact H|].
  exact (failure_details_by_route Sample.env 30 Sample.settings route
           Sample.t0 Sample.t0 e H).
Defined.

Lemma emitted_expiry_valid_before_z_run :
  exists tok w',
    get_access_token Sample.env 30
      (OAuth2PasswordRequestForm.mk "alice" "secret") Sample.t0
      = (Return tok, w') /\
    Token.expires_at tok <> "" /\
    exists e,
      Token.expires_at tok = isoformat e ++ "Z" /\
      Calendar.representable e /\
      Iso8601.is_iso8601_utc (isoformat e) = true.
Proof.
  assert (E : exists tok w',
             get_access_token Sample.env 30
               (OAuth2PasswordRequestForm.mk "alice" "secret") Sample.t0
             = (Return tok, w')
             /\ Token.expires_at tok = "2024-01-01T00:30:00+00:00Z")
    by (eexists _, _; split; vm_compute; reflexivity).
  destruct E as (tok & w' & E & Hs). exists tok, w'.
  assert (Hne : Token.expires_at tok <> "") by (rewrite Hs; discriminate).
  conjuncts; [exact E|exact Hne|].
  apply (emitted_expiry_valid_before_z Sample.env 30 Sample.settings
           (PostToken (OAuth2PasswordRequestForm.mk "alice" "secret"))
           Sample.t0 w' (TokenPayload tok)).
  - unfold serve, bind. now rewrite E.
  - left. reflexivity.
  - exact Hne.
Defined.

Lemma reported_expiry_determines_instant_run :
  Calendar.representable Sample.t0 /\
  Calendar.representable (63839664000 * US_PER_SECOND) /\
  isoformat Sample.t0 ++ "Z"
    = isoformat (63839664000 * US_PER_SECOND) ++ "Z" /\
  Sample.t0 = 63839664000 * US_PER_SECOND.
Proof.
  assert (H1 : Calendar.representable Sample.t0) by (vm_compute; intuition discriminate).
  assert (H2 : Calendar.representable (63839664000 * US_PER_SECOND))
    by (vm_compute; intuition discriminate).
  assert (H3 : isoformat Sample.t0 ++ "Z"
               = isoformat (63839664000 * US_PER_SECOND) ++ "Z")
    by (vm_compute; reflexivity).
  conjuncts; try assumption.
  exact (reported_expiry_determines_instant _ _ H1 H2 H3).
Defined.
